(** * Topic detection and topic-code mapping

    A shallow embedding of [server/python-tools/topic_detector.py] (the
    keyword dictionary, the label-to-code mapper, [fit_and_detect] and
    the command-line [main]) and of [embed_text] / [get_sentence_model]
    from [server/python-tools/nlp_runner.py].

    Conventions.
    - A Python [str] is a Rocq [string] holding its UTF-8 bytes.  All the
      dictionary keywords are ASCII, so byte-level containment coincides
      with Python's code-point containment.
    - Third-party libraries (sentence-transformers, BERTopic, [json],
      [str.lower]) are interfaces: type classes whose instances are the
      possible behaviours of the library.
    - Exceptions are values of [exn]; a computation that calls a library
      is a value of the monad [Py], which also records the calls made, in
      order, in a trace. *)

From Stdlib Require Import ZArith Ascii String PrimFloat.
From Stdlib Require Uint63 DecimalString Floats.
From stdpp Require Import base option list gmap strings sorting.

#[local] Set Warnings "-register-all".
#[local] Set Warnings "-inexact-float".
Local Open Scope Z_scope.

(* ===================================================================== *)
(** ** Python strings *)
(* ===================================================================== *)

Module PyStr.

(** [c] is an ASCII character (below 128). *)
Definition is_ascii_char (c : ascii) : bool :=
  (N_of_ascii c <? 128)%N.

Fixpoint is_ascii (s : string) : bool :=
  match s with
  | EmptyString => true
  | String c s' => is_ascii_char c && is_ascii s'
  end.

(** ASCII case folding: 'A'..'Z' to 'a'..'z', any other byte is kept. *)
Definition ascii_lower_char (c : ascii) : ascii :=
  let n := N_of_ascii c in
  if ((65 <=? n) && (n <=? 90))%N then ascii_of_N (n + 32) else c.

Fixpoint ascii_lower (s : string) : string :=
  match s with
  | EmptyString => EmptyString
  | String c s' => String (ascii_lower_char c) (ascii_lower s')
  end.

(** [s.startswith(p)]. *)
Fixpoint startswith (p s : string) : bool :=
  match p, s with
  | EmptyString, _ => true
  | String _ _, EmptyString => false
  | String a p', String b s' => if ascii_dec a b then startswith p' s' else false
  end.

(** Python's [kw in s] on strings: [kw] occurs somewhere in [s]. *)
Fixpoint str_in (kw s : string) : bool :=
  startswith kw s ||
  match s with
  | EmptyString => false
  | String _ s' => str_in kw s'
  end.

(** The meaning of [kw in s]: [s] splits around an occurrence of [kw]. *)
Definition occurs_in (kw s : string) : Prop :=
  ∃ pre post : string, s = pre +:+ kw +:+ post.

(** [sep.join(ls)]. *)
Definition join (sep : string) (ls : list string) : string :=
  String.concat sep ls.

End PyStr.

(** [str.lower()] is the Python runtime's.  On ASCII text it is the ASCII
    case folding; on other text it follows the Unicode tables, which are
    left open here. *)
Class StrLower := {
  lower : string → string;
  lower_ascii : ∀ s, PyStr.is_ascii s = true → lower s = PyStr.ascii_lower s
}.

(** The runtime restricted to what the tables say on ASCII: every other
    byte is kept. *)
#[export] Instance ascii_StrLower : StrLower :=
  {| lower := PyStr.ascii_lower; lower_ascii := λ s _, eq_refl |}.

(* ===================================================================== *)
(** ** The keyword dictionary and the mapper *)
(* ===================================================================== *)

(** [TOPIC_MAPPING]: a dict literal, iterated by [.items()] in insertion
    order, hence the list of its (keyword, code) pairs in source order. *)
Definition TOPIC_MAPPING : list (string * string) :=
  [ ("kailah", "KAILAH");
    ("daughter", "KAILAH");
    ("child", "KAILAH");
    ("baby", "KAILAH");
    ("parenting", "VISITS");
    ("custody", "VISITS");
    ("visitation", "VISITS");
    ("visit", "VISITS");
    ("call", "CALLS");
    ("phone", "CALLS");
    ("contact", "CALLS");
    ("school", "SCHOOL");
    ("education", "SCHOOL");
    ("teacher", "SCHOOL");
    ("money", "MONEY");
    ("financial", "MONEY");
    ("bills", "MONEY");
    ("rent", "MONEY");
    ("payment", "MONEY");
    ("health", "HEALTH");
    ("medical", "HEALTH");
    ("doctor", "HEALTH");
    ("hospital", "HEALTH");
    ("medication", "HEALTH");
    ("alcohol", "SUBST");
    ("drug", "SUBST");
    ("adderall", "SUBST");
    ("substance", "SUBST");
    ("drunk", "SUBST");
    ("cheat", "INFID");
    ("affair", "INFID");
    ("infidelity", "INFID");
    ("loyal", "INFID");
    ("threat", "THREAT");
    ("hurt", "THREAT");
    ("kill", "THREAT");
    ("harm", "THREAT") ].

(** The closed set of topic codes. *)
Definition TOPIC_CODES : list string :=
  [ "KAILAH"; "VISITS"; "CALLS"; "SCHOOL"; "MONEY"; "HEALTH"; "SUBST";
    "INFID"; "THREAT"; "GENRL" ].

(** The loop of [_map_to_code] over the items of a dictionary:
    [for keyword, code in d.items(): if keyword in label_lower: return code],
    then [return 'GENRL']. *)
Fixpoint scan_items (d : list (string * string)) (label_lower : string) : string :=
  match d with
  | [] => "GENRL"
  | (keyword, code) :: rest =>
      if PyStr.str_in keyword label_lower then code
      else scan_items rest label_lower
  end.

(** [_map_to_code] reading the module-level dictionary [d]. *)
Definition _map_to_code_in {L : StrLower} (d : list (string * string)) (label : string) : string :=
  let label_lower := lower label in
  scan_items d label_lower.

(** [TopicDetector._map_to_code]. *)
Definition _map_to_code {L : StrLower} (label : string) : string :=
  _map_to_code_in TOPIC_MAPPING label.

(* ===================================================================== *)
(** ** Python values, exceptions and the call monad *)
(* ===================================================================== *)

(** The Python values that [json.loads] produces and [json.dumps]
    consumes.  A [dict] is the list of its items in insertion order. *)
Inductive pyval :=
| PNone
| PBool (b : bool)
| PInt (n : Z)
| PFloat (x : float)
| PStr (s : string)
| PList (items : list pyval)
| PDict (items : list (pyval * pyval)).

(** A numpy array as far as the code looks at it: [.shape] and
    [.tolist()]. *)
Record ndarray := { shape : list Z; tolist : pyval }.

(** The exceptions the code distinguishes; [Exception cls msg] is any
    other one, of class [cls]. *)
Inductive exn :=
| JSONDecodeError (msg : string)
| ImportError (msg : string)
| SystemExit (code : Z)
| Exception (cls msg : string).

Inductive outcome (A : Type) :=
| Ok (a : A)
| Raise (e : exn).
Arguments Ok {A} a.
Arguments Raise {A} e.

(** What the process does that can be observed from outside, in order:
    calls into the libraries and lines printed on standard output. *)
Inductive event :=
| EvJsonLoads (s : string)               (* json.loads(s) *)
| EvImportSentenceTransformers           (* from sentence_transformers import ... *)
| EvSentenceTransformer (name : string)  (* SentenceTransformer(name) *)
| EvBERTopic                             (* BERTopic(...) *)
| EvEncode (texts : pyval)               (* model.encode(texts) *)
| EvFitTransform (docs : list pyval)     (* topic_model.fit_transform(docs) *)
| EvPrint (v : pyval).                   (* print(json.dumps(v)) *)

(** An adapter call: loading or running the embedder or the clusterer. *)
Definition is_adapter_call (e : event) : bool :=
  match e with
  | EvImportSentenceTransformers | EvSentenceTransformer _ | EvBERTopic
  | EvEncode _ | EvFitTransform _ => true
  | EvJsonLoads _ | EvPrint _ => false
  end.

(** A computation: the events it produced and how it ended. *)
Definition Py (A : Type) : Type := list event * outcome A.

#[export] Instance Py_ret : MRet Py := λ A a, ([], Ok a).
#[export] Instance Py_bind : MBind Py := λ A B k m,
  match m with
  | (tr, Ok a) => let '(tr', r) := k a in (tr ++ tr', r)
  | (tr, Raise e) => (tr, Raise e)
  end.

(** [raise e]. *)
Definition raise {A} (e : exn) : Py A := ([], Raise e).

(** A library call, recorded as [ev], that ends as [r]. *)
Definition call {A} (ev : event) (r : outcome A) : Py A := ([ev], r).

(** [print(json.dumps(v))]. *)
Definition print_json (v : pyval) : Py unit := ([EvPrint v], Ok ()).

(** [sys.exit(code)]. *)
Definition sys_exit {A} (code : Z) : Py A := raise (SystemExit code).

(** An operation that calls no library and ends as [r]. *)
Definition of_outcome {A} (r : outcome A) : Py A := ([], r).

(** [try: m  except <the exceptions handler accepts>: handler e]. *)
Definition try_except {A} (m : Py A) (handler : exn → option (Py A)) : Py A :=
  match m with
  | (tr, Ok a) => (tr, Ok a)
  | (tr, Raise e) =>
      match handler e with
      | Some h => let '(tr', r) := h in (tr ++ tr', r)
      | None => (tr, Raise e)
      end
  end.

(** The exit status of the interpreter when the script ends as [r]:
    [SystemExit] carries it, any other uncaught exception gives 1. *)
Definition exit_status {A} (r : outcome A) : Z :=
  match r with
  | Ok _ => 0
  | Raise (SystemExit code) => code
  | Raise _ => 1
  end.

(** The lines printed on standard output. *)
Definition stdout (tr : list event) : list pyval :=
  omap (λ e, match e with EvPrint v => Some v | _ => None end) tr.

(** [key in d] for a printed object. *)
Definition has_field (key : string) (v : pyval) : bool :=
  match v with
  | PDict items => existsb (λ kv, match kv.1 with PStr k => String.eqb k key | _ => false end) items
  | _ => false
  end.

(** [d[key]] for a printed object. *)
Definition field (key : string) (v : pyval) : option pyval :=
  match v with
  | PDict items =>
      snd <$> find (λ kv, match kv.1 with PStr k => String.eqb k key | _ => false end) items
  | _ => None
  end.

(* ===================================================================== *)
(** ** The third-party libraries *)
(* ===================================================================== *)

(** [json.loads] on the text of an argument. *)
Class JsonLib := {
  json_loads : string → outcome pyval
}.

(** sentence-transformers: importing the package, loading a model by
    name, and encoding with the loaded model. *)
Class SentenceTransformers := {
  st_import : outcome unit;
  st_new : string → outcome unit;
  encode : pyval → outcome ndarray
}.

(** What [get_topic] returns: [False] for an unknown topic, else the
    ranked (word, score) pairs. *)
Inductive topic_words :=
| TWFalse
| TWList (words : list (string * float)).

(** The topic ids as [fit_transform] hands them over: a numpy array,
    which has [.tolist()], or a plain Python list, which has not.  The
    code iterates over either in the same way. *)
Inductive topic_ids :=
| IdsArray (ids : list Z)
| IdsList (ids : list Z).

(** The ids that iterating over the object yields. *)
Definition ids_of (t : topic_ids) : list Z :=
  match t with
  | IdsArray ids => ids
  | IdsList ids => ids
  end.
Coercion ids_of : topic_ids >-> list.

(** [topics.tolist()]. *)
Definition ids_tolist (t : topic_ids) : outcome (list Z) :=
  match t with
  | IdsArray ids => Ok ids
  | IdsList _ => Raise (Exception "AttributeError" "'list' object has no attribute 'tolist'")
  end.

(** BERTopic: the state of a model instance, its constructor, fitting
    (which yields the fitted instance and the topic ids of the
    documents, as an array or as a list) and the two queries on a fitted
    instance: the [Topic] column of [get_topic_info()] in row order, and
    [get_topic].  The two queries are taken to answer on a fitted
    instance, with terms that are strings.  The probabilities that come
    with the ids are not used by the code. *)
Class BERTopicLib := {
  topic_model_t : Type;
  BERTopic_new : outcome topic_model_t;
  fit_transform : topic_model_t → list pyval → outcome (topic_model_t * topic_ids);
  get_topic_info : topic_model_t → list Z;
  get_topic : topic_model_t → Z → topic_words
}.

(* ===================================================================== *)
(** ** topic_detector.py *)
(* ===================================================================== *)

Section topic_detector.
Context {L : StrLower} {E : SentenceTransformers} {B : BERTopicLib} {J : JsonLib}.

(** The fields of a [TopicDetector] instance. *)
Record TopicDetector := {
  embedding_model : string;
  topic_model : topic_model_t;
  is_fitted : bool
}.

(** The dict that [fit_and_detect] returns. *)
Record Result := {
  topics : list Z;
  topic_labels : gmap Z string;
  topic_codes : list string;
  embeddings : pyval
}.

(** [TopicDetector.__init__]. *)
Definition __init__ : Py TopicDetector :=
  _ ← call (EvSentenceTransformer "all-MiniLM-L6-v2") (st_new "all-MiniLM-L6-v2");
  tm ← call EvBERTopic BERTopic_new;
  mret {| embedding_model := "all-MiniLM-L6-v2"; topic_model := tm; is_fitted := false |}.

(** [if topic_words:] *)
Definition tw_truthy (tw : topic_words) : bool :=
  match tw with
  | TWFalse => false
  | TWList [] => false
  | TWList (_ :: _) => true
  end.

Definition tw_words (tw : topic_words) : list (string * float) :=
  match tw with
  | TWFalse => []
  | TWList words => words
  end.

(** ['_'.join([word for word, _ in topic_words[:3]])]. *)
Definition make_label (words : list (string * float)) : string :=
  PyStr.join "_" (fst <$> take 3 words).

(** The loop over the rows of [get_topic_info()] that fills
    [topic_labels]. *)
Fixpoint label_rows (tm : topic_model_t) (rows : list Z)
    (topic_labels : gmap Z string) : gmap Z string :=
  match rows with
  | [] => topic_labels
  | topic_id :: rest =>
      if topic_id =? -1 then label_rows tm rest topic_labels
      else
        let topic_words := get_topic tm topic_id in
        if tw_truthy topic_words then
          let label := make_label (tw_words topic_words) in
          label_rows tm rest (<[topic_id := label]> topic_labels)
        else label_rows tm rest topic_labels
  end.

(** The body of the loop that fills [topic_codes], for one [topic_id]. *)
Definition code_for (d : list (string * string)) (topic_labels : gmap Z string)
    (topic_id : Z) : string :=
  if topic_id =? -1 then "GENRL"
  else
    let label := default "" (topic_labels !! topic_id) in
    _map_to_code_in d label.

(** [fit_and_detect], reading the module-level dictionary [d]; it
    yields the instance after the call and the returned dict.  When a
    library call raises, the exception leaves the method (nothing in the
    file catches it) and the instance is not used again.  The returned
    dict is built after the encoding, [topics.tolist()] first: on ids
    that come as a plain list it raises [AttributeError]. *)
Definition fit_and_detect_in (d : list (string * string))
    (self : TopicDetector) (messages : list pyval) : Py (TopicDetector * Result) :=
  if (length messages <? 2)%nat then
    arr ← call (EvEncode (PList messages)) (encode (PList messages));
    mret (self,
          {| topics := replicate (length messages) (-1);
             topic_labels := ∅;
             topic_codes := replicate (length messages) "GENRL";
             embeddings := tolist arr |})
  else
    '(tm, topics) ← call (EvFitTransform messages) (fit_transform (topic_model self) messages);
    let self := {| embedding_model := embedding_model self;
                   topic_model := tm; is_fitted := true |} in
    let topic_info := get_topic_info tm in
    let topic_labels := label_rows tm topic_info ∅ in
    let topic_codes := code_for d topic_labels <$> ids_of topics in
    arr ← call (EvEncode (PList messages)) (encode (PList messages));
    topics_list ← of_outcome (ids_tolist topics);
    mret (self,
          {| topics := topics_list;
             topic_labels := topic_labels;
             topic_codes := topic_codes;
             embeddings := tolist arr |}).

(** [TopicDetector.fit_and_detect]. *)
Definition fit_and_detect (self : TopicDetector) (messages : list pyval)
    : Py (TopicDetector * Result) :=
  fit_and_detect_in TOPIC_MAPPING self messages.

(** The returned dict as the Python object handed to [json.dumps].  The
    items of [topic_labels] are listed in the order of the map, not in
    insertion order. *)
Definition result_dict (r : Result) : pyval :=
  PDict [ (PStr "topics", PList (PInt <$> topics r));
          (PStr "topic_labels",
           PDict ((λ kv, (PInt kv.1, PStr kv.2)) <$> map_to_list (topic_labels r)));
          (PStr "topic_codes", PList (PStr <$> topic_codes r));
          (PStr "embeddings", embeddings r) ].

Definition error_dict (msg : string) : pyval :=
  PDict [ (PStr "error", PStr msg) ].

(** [main], on [sys.argv]. *)
Definition main (argv : list string) : Py unit :=
  if (length argv <? 2)%nat then
    _ ← print_json (error_dict "No messages provided");
    sys_exit 1
  else
    let arg := default "" (argv !! 1%nat) in
    messages ←
      try_except (call (EvJsonLoads arg) (json_loads arg))
        (λ e, match e with
              | JSONDecodeError msg =>
                  Some (_ ← print_json (error_dict ("Invalid JSON: " +:+ msg));
                        sys_exit 1)
              | _ => None
              end);
    match messages with
    | PList items =>
        detector ← __init__;
        '(_, result) ← fit_and_detect detector items;
        print_json (result_dict result)
    | _ =>
        _ ← print_json (error_dict "Messages must be a list");
        sys_exit 1
    end.

End topic_detector.

(** [TopicDetector.get_embedding]: [encode([text])[0].tolist()]; the
    first row of the array, [IndexError] when it has none. *)
Definition get_embedding {E : SentenceTransformers} (text : pyval) : Py pyval :=
  arr ← call (EvEncode (PList [text])) (encode (PList [text]));
  match tolist arr with
  | PList (row :: _) => mret row
  | PList [] =>
      raise (Exception "IndexError" "index 0 is out of bounds for axis 0 with size 0")
  | _ => raise (Exception "IndexError" "too many indices for array")
  end.

(* ===================================================================== *)
(** ** nlp_runner.py: [get_sentence_model] and [embed_text] *)
(* ===================================================================== *)

Module PyVal.

(** A UTF-8 continuation byte (10xxxxxx). *)
Definition is_continuation (c : ascii) : bool :=
  let n := N_of_ascii c in ((128 <=? n) && (n <? 192))%N.

(** The characters of a string: each lead byte with the continuation
    bytes after it. *)
Fixpoint chars (s : string) : list string :=
  match s with
  | EmptyString => []
  | String c s' =>
      match s' with
      | String c' _ =>
          if is_continuation c' then
            match chars s' with
            | x :: r => String c x :: r
            | [] => [String c EmptyString]
            end
          else String c EmptyString :: chars s'
      | EmptyString => [String c EmptyString]
      end
  end.

(** Truth value of an object ([if v:]). *)
Definition truthy (v : pyval) : bool :=
  match v with
  | PNone => false
  | PBool b => b
  | PInt n => negb (n =? 0)
  | PFloat x => negb (PrimFloat.eqb x PrimFloat.zero)
  | PStr s => negb (String.eqb s "")
  | PList items => negb (bool_decide (items = []))
  | PDict items => negb (bool_decide (items = []))
  end.

(** The items [for _ in v] runs over; [TypeError] when [v] is not
    iterable. *)
Definition iter (v : pyval) : outcome (list pyval) :=
  match v with
  | PList items => Ok items
  | PStr s => Ok (PStr <$> chars s)
  | PDict items => Ok (fst <$> items)
  | PNone => Raise (Exception "TypeError" "'NoneType' object is not iterable")
  | PBool _ => Raise (Exception "TypeError" "'bool' object is not iterable")
  | PInt _ => Raise (Exception "TypeError" "'int' object is not iterable")
  | PFloat _ => Raise (Exception "TypeError" "'float' object is not iterable")
  end.

End PyVal.

Section nlp_runner.
Context {E : SentenceTransformers}.

(** [get_sentence_model], on the value of the global [_sentence_model]
    (which holds the name of the loaded model, or [None]).  It yields
    the value returned, which is also the global's value after the
    call. *)
Definition get_sentence_model (_sentence_model : option string) : Py (option string) :=
  match _sentence_model with
  | None =>
      try_except
        (_ ← call EvImportSentenceTransformers st_import;
         _ ← call (EvSentenceTransformer "all-MiniLM-L6-v2") (st_new "all-MiniLM-L6-v2");
         mret (Some "all-MiniLM-L6-v2"))
        (λ e, match e with
              | ImportError _ => Some (mret None)
              | _ => None
              end)
  | Some m => mret (Some m)
  end.

(** [[0.0] * 384]. *)
Definition placeholder_vector : pyval :=
  PList (replicate 384 (PFloat PrimFloat.zero)).

(** The first two lines of [embed_text]:
    [text = args.get("text", "")] and
    [texts = args.get("texts", [text] if text else [])]. *)
Definition texts_of_args (args : gmap string pyval) : pyval :=
  let text := default (PStr "") (args !! "text") in
  default (if PyVal.truthy text then PList [text] else PList []) (args !! "texts").

(** [embed_text(args)], on the value of the global [_sentence_model];
    it yields the global's value after the call and the returned
    dict. *)
Definition embed_text (args : gmap string pyval) (_sentence_model : option string)
    : Py (option string * pyval) :=
  let texts := texts_of_args args in
  model ← get_sentence_model _sentence_model;
  match model with
  | None =>
      items ← (([], PyVal.iter texts) : Py (list pyval));
      mret (model,
            PDict [ (PStr "embeddings",
                     PList ((λ _, placeholder_vector) <$> items));
                    (PStr "model", PStr "unavailable");
                    (PStr "dimensions", PInt 384) ])
  | Some _ =>
      embeddings ← call (EvEncode texts) (encode texts);
      mret (model,
            PDict [ (PStr "embeddings", tolist embeddings);
                    (PStr "model", PStr "all-MiniLM-L6-v2");
                    (PStr "dimensions",
                     PInt (if (1 <? length (shape embeddings))%nat
                           then default 0 (shape embeddings !! 1%nat)
                           else 384)) ])
  end.

End nlp_runner.


(* ===================================================================== *)
(** ** nlp_runner.py: the Python runtime and the other libraries *)
(* ===================================================================== *)

Module PyOps.

(** [type(v).__name__]. *)
Definition type_name (v : pyval) : string :=
  match v with
  | PNone => "NoneType"
  | PBool _ => "bool"
  | PInt _ => "int"
  | PFloat _ => "float"
  | PStr _ => "str"
  | PList _ => "list"
  | PDict _ => "dict"
  end.

(** The [AttributeError] of [v.name] when [v] has no such attribute. *)
Definition no_attribute (v : pyval) (name : string) : exn :=
  Exception "AttributeError"
    ("'" +:+ type_name v +:+ "' object has no attribute '" +:+ name +:+ "'").

(** The string [v] when a [str] method is called on it. *)
Definition str_method (name : string) (v : pyval) : outcome string :=
  match v with
  | PStr s => Ok s
  | _ => Raise (no_attribute v name)
  end.

(** [len(s)] for a string: its number of characters. *)
Definition str_len (s : string) : Z := Z.of_nat (length (PyVal.chars s)).

(** [except Exception] catches everything but [SystemExit]. *)
Definition is_Exception (e : exn) : bool :=
  match e with
  | SystemExit _ => false
  | _ => true
  end.

(** [except OSError]: the class and its built-in subclasses. *)
Definition is_OSError (e : exn) : bool :=
  match e with
  | Exception cls _ =>
      bool_decide (cls ∈ [ "OSError"; "IOError"; "EnvironmentError"; "BlockingIOError";
                           "ChildProcessError"; "ConnectionError"; "BrokenPipeError";
                           "ConnectionAbortedError"; "ConnectionRefusedError";
                           "ConnectionResetError"; "FileExistsError"; "FileNotFoundError";
                           "InterruptedError"; "IsADirectoryError"; "NotADirectoryError";
                           "PermissionError"; "ProcessLookupError"; "TimeoutError" ])
  | _ => false
  end.

(** [str(e)] for an exception. *)
Definition exn_str (e : exn) : string :=
  match e with
  | JSONDecodeError msg => msg
  | ImportError msg => msg
  | SystemExit code => DecimalString.NilZero.string_of_int (Z.to_int code)
  | Exception _ msg => msg
  end.

(** [float(n)] for an integer below 2^53 in magnitude. *)
Definition float_of_Z (n : Z) : float :=
  match n with
  | Z0 => PrimFloat.zero
  | Zpos _ => PrimFloat.of_uint63 (Uint63.of_Z n)
  | Zneg p => PrimFloat.opp (PrimFloat.of_uint63 (Uint63.of_Z (Zpos p)))
  end.

(** [a / b] on integers (below 2^53 in magnitude): a float, or
    [ZeroDivisionError]. *)
Definition int_truediv (a b : Z) : outcome float :=
  if b =? 0 then Raise (Exception "ZeroDivisionError" "division by zero")
  else Ok (PrimFloat.div (float_of_Z a) (float_of_Z b)).

(** [n <= v] for an integer [n]: defined against numbers only. *)
Definition int_le (n : Z) (v : pyval) : outcome bool :=
  match v with
  | PInt m => Ok (n <=? m)
  | PBool b => Ok (n <=? (if b then 1 else 0))
  | PFloat x => Ok (PrimFloat.leb (float_of_Z n) x)
  | _ => Raise (Exception "TypeError"
                  ("'<=' not supported between instances of 'int' and '"
                   +:+ type_name v +:+ "'"))
  end.

(** [l[:stop]]. *)
Definition slice_to {A} (stop : pyval) (l : list A) : outcome (list A) :=
  let upto (n : Z) :=
    if n <? 0 then take (Z.to_nat (Z.of_nat (length l) + n)) l
    else take (Z.to_nat n) l in
  match stop with
  | PNone => Ok l
  | PInt n => Ok (upto n)
  | PBool b => Ok (upto (if b then 1 else 0))
  | _ => Raise (Exception "TypeError"
                  "slice indices must be integers or None or have an __index__ method")
  end.

(** [s in container] for a string [s]. *)
Definition contains_str (container : pyval) (s : string) : outcome bool :=
  match container with
  | PList items =>
      Ok (existsb (λ v, match v with PStr t => String.eqb t s | _ => false end) items)
  | PDict items =>
      Ok (existsb (λ kv, match kv.1 with PStr t => String.eqb t s | _ => false end) items)
  | PStr t => Ok (PyStr.str_in s t)
  | _ => Raise (Exception "TypeError"
                  ("argument of type '" +:+ type_name container +:+ "' is not iterable"))
  end.

(** [s.split(sep)] for a one-character separator. *)
Fixpoint split_on (sep : ascii) (s : string) : list string :=
  match s with
  | EmptyString => [EmptyString]
  | String c s' =>
      let r := split_on sep s' in
      if ascii_dec c sep then EmptyString :: r
      else match r with
           | x :: r' => String c x :: r'
           | [] => [String c EmptyString]
           end
  end.

(** [s.lstrip(c)] for a one-character set. *)
Fixpoint lstrip_char (c : ascii) (s : string) : string :=
  match s with
  | EmptyString => EmptyString
  | String a s' => if ascii_dec a c then lstrip_char c s' else s
  end.

(** [s.rstrip(c)] for a one-character set. *)
Fixpoint rstrip_char (c : ascii) (s : string) : string :=
  match s with
  | EmptyString => EmptyString
  | String a s' =>
      let r := rstrip_char c s' in
      match r with
      | EmptyString => if ascii_dec a c then EmptyString else String a EmptyString
      | _ => String a r
      end
  end.

(** [s.endswith(c)] for one character. *)
Fixpoint endswith_char (c : ascii) (s : string) : bool :=
  match s with
  | EmptyString => false
  | String a EmptyString => if ascii_dec a c then true else false
  | String _ s' => endswith_char c s'
  end.

(** [s.count(sub)]: the occurrences of [sub] in [s] that do not overlap,
    from the left; [skip] characters are still covered by the last
    occurrence counted. *)
Fixpoint count_from (sub s : string) (skip : nat) : Z :=
  match s with
  | EmptyString => 0
  | String _ s' =>
      match skip with
      | S k => count_from sub s' k
      | O =>
          if PyStr.startswith sub s
          then 1 + count_from sub s' (String.length sub - 1)
          else count_from sub s' 0
      end
  end.

Definition count (sub s : string) : Z :=
  match sub with
  | EmptyString => str_len s + 1
  | _ => count_from sub s 0
  end.

(** A dict from strings to integers, as the list of its items in
    insertion order; [d[k] = d.get(k, 0) + n]. *)
Fixpoint dict_add (k : string) (n : Z) (d : list (string * Z)) : list (string * Z) :=
  match d with
  | [] => [(k, n)]
  | (k', v) :: rest =>
      if String.eqb k' k then (k', v + n) :: rest else (k', v) :: dict_add k n rest
  end.

(** [d[k] = v] on a dict given by its items in insertion order. *)
Fixpoint dict_set {V} (k : string) (v : V) (d : list (string * V)) : list (string * V) :=
  match d with
  | [] => [(k, v)]
  | (k', v') :: rest =>
      if String.eqb k' k then (k', v) :: rest else (k', v') :: dict_set k v rest
  end.

(** [sorted(items, key=lambda x: -x[1])]: the stable sort by decreasing
    count. *)
Fixpoint insert_by_count (x : string * Z) (l : list (string * Z)) : list (string * Z) :=
  match l with
  | [] => [x]
  | y :: l' => if y.2 <=? x.2 then x :: l else y :: insert_by_count x l'
  end.

Definition sorted_by_count (items : list (string * Z)) : list (string * Z) :=
  foldr insert_by_count [] items.

(** [max(items, key=lambda x: x[1])] on a list that starts with [best]. *)
Fixpoint max_by_value (best : string * float) (rest : list (string * float))
    : string * float :=
  match rest with
  | [] => best
  | x :: rest' =>
      if PrimFloat.ltb best.2 x.2 then max_by_value x rest' else max_by_value best rest'
  end.

End PyOps.

(** The string methods that follow the Unicode tables: [s.split()],
    [s.strip()], [s.isupper()], [s.title()], and the split of
    [re.split(r'(?<=[.!?])\s+', s)]. *)
Class StrRuntime := {
  split_ws : string → list string;
  strip : string → string;
  isupper : string → bool;
  title : string → string;
  re_split_sentences : string → list string
}.

Module AsciiRuntime.

(** [c.isspace()] for an ASCII character. *)
Definition is_space (c : ascii) : bool :=
  let n := N_of_ascii c in
  (((9 <=? n) && (n <=? 13)) || ((28 <=? n) && (n <=? 32)))%N.

Definition is_upper (c : ascii) : bool :=
  let n := N_of_ascii c in ((65 <=? n) && (n <=? 90))%N.

Definition is_lower (c : ascii) : bool :=
  let n := N_of_ascii c in ((97 <=? n) && (n <=? 122))%N.

Definition to_upper (c : ascii) : ascii :=
  if is_lower c then ascii_of_N (N_of_ascii c - 32) else c.

Fixpoint split_ws (s : string) : list string :=
  match s with
  | EmptyString => []
  | String c s' =>
      if is_space c then split_ws s'
      else
        match s' with
        | EmptyString => [String c EmptyString]
        | String c' _ =>
            if is_space c' then String c EmptyString :: split_ws s'
            else match split_ws s' with
                 | x :: r => String c x :: r
                 | [] => [String c EmptyString]
                 end
        end
  end.

Fixpoint lstrip (s : string) : string :=
  match s with
  | EmptyString => EmptyString
  | String c s' => if is_space c then lstrip s' else s
  end.

Fixpoint rstrip (s : string) : string :=
  match s with
  | EmptyString => EmptyString
  | String c s' =>
      match rstrip s' with
      | EmptyString => if is_space c then EmptyString else String c EmptyString
      | r => String c r
      end
  end.

Definition strip (s : string) : string := rstrip (lstrip s).

Fixpoint has_upper (s : string) : bool :=
  match s with
  | EmptyString => false
  | String c s' => is_upper c || has_upper s'
  end.

Fixpoint has_lower (s : string) : bool :=
  match s with
  | EmptyString => false
  | String c s' => is_lower c || has_lower s'
  end.

Definition isupper (s : string) : bool := has_upper s && negb (has_lower s).

Fixpoint title_from (previous_is_cased : bool) (s : string) : string :=
  match s with
  | EmptyString => EmptyString
  | String c s' =>
      if is_lower c then
        String (if previous_is_cased then c else to_upper c) (title_from true s')
      else if is_upper c then
        String (if previous_is_cased then PyStr.ascii_lower_char c else c)
               (title_from true s')
      else String c (title_from false s')
  end.

Definition title (s : string) : string := title_from false s.

Definition is_sentence_end (c : ascii) : bool :=
  bool_decide (c ∈ [ "."%char; "!"%char; "?"%char ]).

(** The pieces between the whitespace runs that follow '.', '!' or '?';
    [piece] is the current piece, reversed. *)
Fixpoint re_split_from (s : string) (after_end in_match : bool) (piece : list ascii)
    : list string :=
  match s with
  | EmptyString => [string_of_list_ascii (rev piece)]
  | String c s' =>
      if is_space c then
        if in_match then re_split_from s' false true piece
        else if after_end then
          string_of_list_ascii (rev piece) :: re_split_from s' false true []
        else re_split_from s' false false (c :: piece)
      else re_split_from s' (is_sentence_end c) false (c :: piece)
  end.

Definition re_split_sentences (s : string) : list string :=
  re_split_from s false false [].

End AsciiRuntime.

(** The runtime on ASCII text. *)
#[export] Instance ascii_StrRuntime : StrRuntime :=
  {| split_ws := AsciiRuntime.split_ws;
     strip := AsciiRuntime.strip;
     isupper := AsciiRuntime.isupper;
     title := AsciiRuntime.title;
     re_split_sentences := AsciiRuntime.re_split_sentences |}.

(** [list(set(xs))] for strings: the elements of [xs], each once, in an
    order that the runtime chooses (it follows the hashes of the strings,
    which change from one process to the next). *)
Class SetOrder := {
  list_of_set : list string → list string;
  list_of_set_perm xs : list_of_set xs ≡ₚ remove_dups xs
}.

(** A runtime that lists a set in the order of first occurrence. *)
#[export] Instance first_seen_SetOrder : SetOrder :=
  {| list_of_set := remove_dups;
     list_of_set_perm := λ xs, Permutation_refl (remove_dups xs) |}.

(** What the code reads of a spaCy entity and of a sentence span. *)
Record entity := {
  ent_text : string;
  label_ : string;
  ent_start_char : Z;
  ent_end_char : Z
}.

Record span := {
  span_text : string;
  start_char : Z;
  end_char : Z
}.

(** What the code reads of a spaCy [Doc]: [ents], and the texts of
    [noun_chunks] and the spans of [sents], which raise when the
    pipeline lacks the component they need. *)
Record doc := {
  ents : list entity;
  noun_chunks : outcome (list string);
  sents : outcome (list span)
}.

(** spaCy: importing the package, [spacy.load], [spacy.blank], and
    calling the loaded pipeline on a text. *)
Class SpacyLib := {
  nlp_t : Type;
  spacy_import : outcome unit;
  spacy_load : string → outcome nlp_t;
  spacy_blank : string → outcome nlp_t;
  nlp_call : nlp_t → pyval → outcome doc
}.

(** langdetect: importing the package, and importing and calling
    [detect_langs], which gives the candidate languages with their
    probabilities, best first. *)
Class LangdetectLib := {
  langdetect_import : outcome unit;
  detect_langs : pyval → outcome (list (string * float))
}.

(** [sys.stdin.read()]. *)
Class Stdin := {
  stdin_read : outcome string
}.

(** The events of nlp_runner.py: those of the shared kind, and the calls
    into spaCy and langdetect and the read of standard input. *)
Inductive nlp_event :=
| EvPy (e : event)
| EvImportSpacy
| EvSpacyLoad (name : string)
| EvSpacyBlank (lang : string)
| EvNlp (text : pyval)
| EvImportLangdetect
| EvDetectLangs (text : pyval)
| EvStdinRead.

Definition Nlp (A : Type) : Type := list nlp_event * outcome A.

#[export] Instance Nlp_ret : MRet Nlp := λ A a, ([], Ok a).
#[export] Instance Nlp_bind : MBind Nlp := λ A B k m,
  match m with
  | (tr, Ok a) => let '(tr', r) := k a in (tr ++ tr', r)
  | (tr, Raise e) => (tr, Raise e)
  end.

Module NlpM.

(** A computation of the shared kind, run inside nlp_runner.py. *)
Definition of_py {A} (m : Py A) : Nlp A := (EvPy <$> m.1, m.2).

(** An outcome that costs no call. *)
Definition pure {A} (r : outcome A) : Nlp A := ([], r).

(** A library call, recorded as [ev], that ends as [r]. *)
Definition call {A} (ev : nlp_event) (r : outcome A) : Nlp A := ([ev], r).

Definition print_json (v : pyval) : Nlp unit := ([EvPy (EvPrint v)], Ok ()).

Definition sys_exit {A} (code : Z) : Nlp A := ([], Raise (SystemExit code)).

Definition try_except {A} (m : Nlp A) (handler : exn → option (Nlp A)) : Nlp A :=
  match m with
  | (tr, Ok a) => (tr, Ok a)
  | (tr, Raise e) =>
      match handler e with
      | Some h => let '(tr', r) := h in (tr ++ tr', r)
      | None => (tr, Raise e)
      end
  end.

(** The lines printed on standard output. *)
Definition stdout (tr : list nlp_event) : list pyval :=
  omap (λ e, match e with EvPy (EvPrint v) => Some v | _ => None end) tr.

End NlpM.

#[export] Instance outcome_ret : MRet outcome := λ A a, Ok a.
#[export] Instance outcome_bind : MBind outcome := λ A B k m,
  match m with
  | Ok a => k a
  | Raise e => Raise e
  end.

(* ===================================================================== *)
(** ** nlp_runner.py: the commands and [main] *)
(* ===================================================================== *)

Section nlp_commands.
Context {L : StrLower} {R : StrRuntime} {O : SetOrder} {E : SentenceTransformers}
        {Sp : SpacyLib} {D : LangdetectLib} {J : JsonLib} {I : Stdin}.

(** [get_spacy], on the value of the global [_spacy_nlp]; it yields the
    value returned, which is also the global's value after the call. *)
Definition get_spacy (_spacy_nlp : option nlp_t) : Nlp (option nlp_t) :=
  match _spacy_nlp with
  | None =>
      NlpM.try_except
        (_ ← NlpM.call EvImportSpacy spacy_import;
         nlp ← NlpM.try_except
                 (NlpM.call (EvSpacyLoad "en_core_web_sm") (spacy_load "en_core_web_sm"))
                 (λ e, if PyOps.is_OSError e
                       then Some (NlpM.call (EvSpacyBlank "en") (spacy_blank "en"))
                       else None);
         mret (Some nlp))
        (λ e, match e with
              | ImportError _ => Some (mret None)
              | _ => None
              end)
  | Some nlp => mret (Some nlp)
  end.

(** [get_langdetect], on the value of the global [_langdetect] (the
    module, or [None]). *)
Definition get_langdetect (_langdetect : option unit) : Nlp (option unit) :=
  match _langdetect with
  | None =>
      NlpM.try_except
        (_ ← NlpM.call EvImportLangdetect langdetect_import;
         mret (Some ()))
        (λ e, match e with
              | ImportError _ => Some (mret None)
              | _ => None
              end)
  | Some ld => mret (Some ld)
  end.

(** [detect_language(args)], on the value of the global [_langdetect]. *)
Definition detect_language (args : gmap string pyval) (_langdetect : option unit)
    : Nlp (option unit * pyval) :=
  let text := default (PStr "") (args !! "text") in
  ld ← get_langdetect _langdetect;
  match ld with
  | None =>
      mret (ld, PDict [ (PStr "language", PStr "en");
                        (PStr "confidence", PFloat 0.5%float);
                        (PStr "method", PStr "fallback") ])
  | Some _ =>
      found ←
        NlpM.try_except
          (results ← NlpM.call (EvDetectLangs text) (detect_langs text);
           mret (match results with
                 | top :: _ =>
                     Some (PDict [ (PStr "language", PStr top.1);
                                   (PStr "confidence", PFloat top.2);
                                   (PStr "alternatives",
                                    PList ((λ r, PDict [ (PStr "lang", PStr r.1);
                                                         (PStr "prob", PFloat r.2) ])
                                           <$> take 4 (drop 1 results)));
                                   (PStr "method", PStr "langdetect") ])
                 | [] => None
                 end))
          (λ e, if PyOps.is_Exception e then Some (mret None) else None);
      mret (ld, default (PDict [ (PStr "language", PStr "unknown");
                                 (PStr "confidence", PFloat 0.0%float);
                                 (PStr "method", PStr "error") ])
                        found)
  end.

(** The loop of [extract_entities] over [doc.ents]. *)
Fixpoint select_entities (entity_types : pyval) (es : list entity)
    : outcome (list entity) :=
  match es with
  | [] => Ok []
  | ent :: rest =>
      skip ← (if PyVal.truthy entity_types
              then found ← PyOps.contains_str entity_types (label_ ent); Ok (negb found)
              else Ok false);
      entities ← select_entities entity_types rest;
      Ok (if (skip : bool) then entities else ent :: entities)
  end.

Definition entity_dict (ent : entity) : pyval :=
  PDict [ (PStr "text", PStr (ent_text ent));
          (PStr "type", PStr (label_ ent));
          (PStr "start", PInt (ent_start_char ent));
          (PStr "end", PInt (ent_end_char ent));
          (PStr "confidence", PFloat 0.9%float) ].

(** [extract_entities(args)], on the value of the global [_spacy_nlp].
    The order of [types_found] is the runtime's. *)
Definition extract_entities (args : gmap string pyval) (_spacy_nlp : option nlp_t)
    : Nlp (option nlp_t * pyval) :=
  let text := default (PStr "") (args !! "text") in
  let entity_types := default PNone (args !! "types") in
  nlp ← get_spacy _spacy_nlp;
  match nlp with
  | None => mret (nlp, PDict [ (PStr "entities", PList []);
                               (PStr "method", PStr "unavailable") ])
  | Some pipeline =>
      d ← NlpM.call (EvNlp text) (nlp_call pipeline text);
      entities ← NlpM.pure (select_entities entity_types (ents d));
      mret (nlp, PDict [ (PStr "entities", PList (entity_dict <$> entities));
                         (PStr "count", PInt (Z.of_nat (length entities)));
                         (PStr "types_found",
                          PList (PStr <$> list_of_set (label_ <$> entities)));
                         (PStr "method", PStr "spacy") ])
  end.

(** The loop of the fallback of [extract_keywords] that fills [freq]. *)
Definition count_long_words (words : list string) : list (string * Z) :=
  foldl (λ freq w, if 3 <? PyOps.str_len w then PyOps.dict_add w 1 freq else freq)
        [] words.

(** The two loops of [extract_keywords] that fill [keyword_scores]. *)
Definition score_chunks (chunks : list string) : list (string * Z) :=
  foldl (λ keyword_scores chunk,
           let key := strip (lower chunk) in
           if 2 <? PyOps.str_len key then PyOps.dict_add key 1 keyword_scores
           else keyword_scores)
        [] chunks.

Definition score_entities (keyword_scores : list (string * Z)) (es : list entity)
    : list (string * Z) :=
  foldl (λ keyword_scores ent,
           let key := strip (lower (ent_text ent)) in
           PyOps.dict_add key 2 keyword_scores)
        keyword_scores es.

(** [{"keyword": k, "score": v/denominator, "frequency": v}]. *)
Definition keyword_dict (denominator : Z) (kv : string * Z) : outcome pyval :=
  score ← PyOps.int_truediv kv.2 denominator;
  Ok (PDict [ (PStr "keyword", PStr kv.1);
              (PStr "score", PFloat score);
              (PStr "frequency", PInt kv.2) ]).

(** [max(values)] on a list that starts with [v]. *)
Definition max_value (v : Z) (rest : list Z) : Z := foldl Z.max v rest.

(** [extract_keywords(args)], on the value of the global [_spacy_nlp]. *)
Definition extract_keywords (args : gmap string pyval) (_spacy_nlp : option nlp_t)
    : Nlp (option nlp_t * pyval) :=
  let text := default (PStr "") (args !! "text") in
  let top_k := default (PInt 10) (args !! "topK") in
  nlp ← get_spacy _spacy_nlp;
  match nlp with
  | None =>
      s ← NlpM.pure (PyOps.str_method "lower" text);
      let words := split_ws (lower s) in
      let freq := count_long_words words in
      sorted_words ← NlpM.pure (PyOps.slice_to top_k (PyOps.sorted_by_count freq));
      keywords ← NlpM.pure (mapM (keyword_dict (Z.of_nat (length words))) sorted_words);
      mret (nlp, PDict [ (PStr "keywords", PList keywords);
                         (PStr "method", PStr "frequency") ])
  | Some pipeline =>
      d ← NlpM.call (EvNlp text) (nlp_call pipeline text);
      chunks ← NlpM.pure (noun_chunks d);
      let keyword_scores := score_entities (score_chunks chunks) (ents d) in
      let max_score := match keyword_scores with
                       | kv :: rest => max_value kv.2 (snd <$> rest)
                       | [] => 1
                       end in
      top ← NlpM.pure (PyOps.slice_to top_k (PyOps.sorted_by_count keyword_scores));
      keywords ← NlpM.pure (mapM (keyword_dict max_score) top);
      mret (nlp, PDict [ (PStr "keywords", PList keywords);
                         (PStr "method", PStr "spacy") ])
  end.

Definition positive_words : gset string :=
  list_to_set [ "good"; "great"; "excellent"; "amazing"; "wonderful"; "fantastic";
                "love"; "happy"; "best"; "perfect"; "beautiful"; "awesome" ].

Definition negative_words : gset string :=
  list_to_set [ "bad"; "terrible"; "awful"; "horrible"; "hate"; "worst";
                "poor"; "disappointing"; "sad"; "angry"; "ugly"; "boring" ].

(** [min(x, 1.0)]. *)
Definition min_with_one (x : float) : float :=
  if PrimFloat.ltb 1.0%float x then 1.0%float else x.

(** What [analyze_sentiment] returns once the matches are counted. *)
Definition sentiment_of_counts (pos_count neg_count : Z) : outcome pyval :=
  let total := pos_count + neg_count in
  if total =? 0 then
    Ok (PDict [ (PStr "label", PStr "neutral");
                (PStr "score", PFloat 0.0%float);
                (PStr "confidence", PFloat 0.5%float);
                (PStr "method", PStr "lexicon") ])
  else
    score ← PyOps.int_truediv (pos_count - neg_count) total;
    let label :=
      if PrimFloat.ltb 0.2%float score then "positive"
      else if PrimFloat.ltb score (PrimFloat.opp 0.2%float) then "negative"
      else "neutral" in
    Ok (PDict [ (PStr "label", PStr label);
                (PStr "score", PFloat score);
                (PStr "confidence",
                 PFloat (min_with_one
                           (PrimFloat.add 0.5%float
                              (PrimFloat.mul (PrimFloat.abs score) 0.5%float))));
                (PStr "positive_matches", PInt pos_count);
                (PStr "negative_matches", PInt neg_count);
                (PStr "method", PStr "lexicon") ]).

(** [analyze_sentiment(args)]. *)
Definition analyze_sentiment (args : gmap string pyval) : outcome pyval :=
  let text := default (PStr "") (args !! "text") in
  s ← PyOps.str_method "lower" text;
  let words : gset string := list_to_set (split_ws (lower s)) in
  let pos_count := Z.of_nat (size (words ∩ positive_words)) in
  let neg_count := Z.of_nat (size (words ∩ negative_words)) in
  sentiment_of_counts pos_count neg_count.

(** [{"text": ..., "start": ..., "end": ..., "index": ...}] for the
    sentences of [doc.sents], numbered from [index]. *)
Fixpoint sentence_dicts (index : Z) (spans : list span) : list pyval :=
  match spans with
  | [] => []
  | sent :: rest =>
      PDict [ (PStr "text", PStr (strip (span_text sent)));
              (PStr "start", PInt (start_char sent));
              (PStr "end", PInt (end_char sent));
              (PStr "index", PInt index) ]
      :: sentence_dicts (index + 1) rest
  end.

(** [split_sentences(args)], on the value of the global [_spacy_nlp]. *)
Definition split_sentences (args : gmap string pyval) (_spacy_nlp : option nlp_t)
    : Nlp (option nlp_t * pyval) :=
  let text := default (PStr "") (args !! "text") in
  nlp ← get_spacy _spacy_nlp;
  match nlp with
  | None =>
      s ← NlpM.pure (match text with
                     | PStr s => Ok s
                     | _ => Raise (Exception "TypeError"
                                     "expected string or bytes-like object")
                     end);
      let sentences := re_split_sentences s in
      mret (nlp,
            PDict [ (PStr "sentences",
                     PList ((λ s, PDict [ (PStr "text", PStr (strip s));
                                          (PStr "start", PInt 0);
                                          (PStr "end", PInt (PyOps.str_len s)) ])
                            <$> filter (λ s, strip s ≠ EmptyString) sentences));
                    (PStr "count", PInt (Z.of_nat (length sentences)));
                    (PStr "method", PStr "regex") ])
  | Some pipeline =>
      d ← NlpM.call (EvNlp text) (nlp_call pipeline text);
      spans ← NlpM.pure (sents d);
      let sentences := sentence_dicts 0 spans in
      mret (nlp, PDict [ (PStr "sentences", PList sentences);
                         (PStr "count", PInt (Z.of_nat (length sentences)));
                         (PStr "method", PStr "spacy") ])
  end.

(** The heading level and title that [generate_outline] gives a
    stripped, non-empty line; level 0 is no heading. *)
Definition heading_of (line : string) : Z * string :=
  if PyStr.startswith "#" line then
    (PyOps.str_len line - PyOps.str_len (PyOps.lstrip_char "#" line),
     strip (PyOps.lstrip_char "#" line))
  else if isupper line && (3 <? PyOps.str_len line) then (1, title line)
  else if PyOps.endswith_char ":" line && (PyOps.str_len line <? 100) then
    (2, PyOps.rstrip_char ":" line)
  else (0, line).

(** The loop of [generate_outline] over [enumerate(lines)], from index
    [i]. *)
Fixpoint outline_from (max_depth : pyval) (i : Z) (lines : list string)
    : outcome (list pyval) :=
  match lines with
  | [] => Ok []
  | line :: rest =>
      let line := strip line in
      if String.eqb line EmptyString then outline_from max_depth (i + 1) rest
      else
        let '(level, title) := heading_of line in
        keep ← (if 0 <? level then PyOps.int_le level max_depth else Ok false);
        outline ← outline_from max_depth (i + 1) rest;
        Ok (if (keep : bool)
            then PDict [ (PStr "level", PInt level);
                         (PStr "title", PStr title);
                         (PStr "line", PInt (i + 1)) ] :: outline
            else outline)
  end.

(** [generate_outline(args)]. *)
Definition generate_outline (args : gmap string pyval) : outcome pyval :=
  let text := default (PStr "") (args !! "text") in
  let max_depth := default (PInt 3) (args !! "maxDepth") in
  s ← PyOps.str_method "split" text;
  let lines := PyOps.split_on "010"%char s in
  outline ← outline_from max_depth 0 lines;
  Ok (PDict [ (PStr "outline", PList outline);
              (PStr "depth", max_depth);
              (PStr "sections", PInt (Z.of_nat (length outline))) ]).

(** [classify_text(args)]. [max] of no item raises [ValueError]; the
    message is the interpreter's (this is the text of CPython up to
    3.11) and no property below depends on it. *)
Definition classify_text (args : gmap string pyval) : outcome pyval :=
  let text := default (PStr "") (args !! "text") in
  let categories := default (PList [PStr "positive"; PStr "negative"; PStr "neutral"])
                            (args !! "categories") in
  s ← PyOps.str_method "lower" text;
  let text_lower := lower s in
  items ← PyVal.iter categories;
  cats ← mapM (PyOps.str_method "lower") items;
  let scores := foldl (λ scores cat,
                         let score := PyOps.count (lower cat) text_lower in
                         PyOps.dict_set cat score scores)
                      [] cats in
  let total := foldr Z.add 0 (snd <$> scores) in
  probs ← (if total =? 0 then
             Ok (foldl (λ probs cat,
                          PyOps.dict_set cat
                            (PrimFloat.div 1.0%float
                               (PyOps.float_of_Z (Z.of_nat (length cats))))
                            probs)
                       [] cats)
           else
             mapM (λ kv, p ← PyOps.int_truediv kv.2 total; Ok (kv.1, p)) scores);
  match probs with
  | [] => Raise (Exception "ValueError" "max() arg is an empty sequence")
  | first :: rest =>
      let top_category := PyOps.max_by_value first rest in
      Ok (PDict [ (PStr "category", PStr top_category.1);
                  (PStr "confidence", PFloat top_category.2);
                  (PStr "scores", PDict ((λ kv, (PStr kv.1, PFloat kv.2)) <$> probs));
                  (PStr "method", PStr "keyword") ])
  end.

(** The three module-level globals. *)
Record globals := {
  g_spacy_nlp : option nlp_t;
  g_sentence_model : option string;
  g_langdetect : option unit
}.

(** The globals when the module has just been loaded. *)
Definition no_globals : globals :=
  {| g_spacy_nlp := None; g_sentence_model := None; g_langdetect := None |}.

Definition with_spacy (g : globals) (m : Nlp (option nlp_t * pyval))
    : Nlp (globals * pyval) :=
  '(nlp, result) ← m;
  mret ({| g_spacy_nlp := nlp; g_sentence_model := g_sentence_model g;
           g_langdetect := g_langdetect g |}, result).

(** [COMMANDS]: each command as a function of its arguments and of the
    globals, in the order of the dict. *)
Definition COMMANDS : list (string * (gmap string pyval → globals → Nlp (globals * pyval))) :=
  [ ("detect_language", λ args g,
       '(ld, result) ← detect_language args (g_langdetect g);
       mret ({| g_spacy_nlp := g_spacy_nlp g; g_sentence_model := g_sentence_model g;
                g_langdetect := ld |}, result));
    ("extract_entities", λ args g, with_spacy g (extract_entities args (g_spacy_nlp g)));
    ("extract_keywords", λ args g, with_spacy g (extract_keywords args (g_spacy_nlp g)));
    ("analyze_sentiment", λ args g,
       result ← NlpM.pure (analyze_sentiment args); mret (g, result));
    ("split_sentences", λ args g, with_spacy g (split_sentences args (g_spacy_nlp g)));
    ("generate_outline", λ args g,
       result ← NlpM.pure (generate_outline args); mret (g, result));
    ("embed_text", λ args g,
       '(model, result) ← NlpM.of_py (embed_text args (g_sentence_model g));
       mret ({| g_spacy_nlp := g_spacy_nlp g; g_sentence_model := model;
                g_langdetect := g_langdetect g |}, result));
    ("classify_text", λ args g,
       result ← NlpM.pure (classify_text args); mret (g, result)) ].

(** The arguments as the dict the commands expect; anything else has no
    [get], which every command calls first. *)
Definition args_dict (args : pyval) : outcome (gmap string pyval) :=
  match args with
  | PDict items =>
      Ok (list_to_map (omap (λ kv, match kv.1 with
                                   | PStr k => Some (k, kv.2)
                                   | _ => None
                                   end) items))
  | _ => Raise (PyOps.no_attribute args "get")
  end.

Definition available : pyval := PList (PStr <$> COMMANDS.*1).

(** [main] of nlp_runner.py, on [sys.argv], in a fresh process. *)
Definition nlp_main (argv : list string) : Nlp unit :=
  if (length argv <? 2)%nat then
    _ ← NlpM.print_json (PDict [ (PStr "error", PStr "No command specified");
                                 (PStr "available", available) ]);
    NlpM.sys_exit 1
  else
    let command := default "" (argv !! 1%nat) in
    match snd <$> find (λ kv, String.eqb kv.1 command) COMMANDS with
    | None =>
        _ ← NlpM.print_json (PDict [ (PStr "error", PStr ("Unknown command: " +:+ command));
                                     (PStr "available", available) ]);
        NlpM.sys_exit 1
    | Some handler =>
        args ←
          (if (2 <? length argv)%nat then
             let arg := default "" (argv !! 2%nat) in
             NlpM.try_except
               (NlpM.call (EvPy (EvJsonLoads arg)) (json_loads arg))
               (λ e, match e with
                     | JSONDecodeError _ => Some (mret (PDict [ (PStr "text", PStr arg) ]))
                     | _ => None
                     end)
           else
             NlpM.try_except
               (input ← NlpM.call EvStdinRead stdin_read;
                NlpM.call (EvPy (EvJsonLoads input)) (json_loads input))
               (λ _, Some (mret (PDict []))));
        NlpM.try_except
          (d ← NlpM.pure (args_dict args);
           '(_, result) ← handler d no_globals;
           NlpM.print_json result)
          (λ e, if PyOps.is_Exception e
                then Some (_ ← NlpM.print_json (PDict [ (PStr "error", PStr (PyOps.exn_str e));
                                                        (PStr "command", PStr command) ]);
                           NlpM.sys_exit 1)
                else None)
    end.

End nlp_commands.

(* ===================================================================== *)
(** ** Reference rules for the commands of nlp_runner.py *)
(* ===================================================================== *)

(** The label in terms of the two counts: positive when the positive
    matches outnumber the negative ones by more than three to two,
    negative the other way round. *)
Definition label_by_counts (pos_count neg_count : Z) : string :=
  if 3 * neg_count <? 2 * pos_count then "positive"
  else if 3 * pos_count <? 2 * neg_count then "negative"
  else "neutral".

(** The facts checked on the dict [sentiment_of_counts] returns. *)
Definition sentiment_checked {L : StrLower} {R : StrRuntime} (pos_count neg_count : Z) : bool :=
  match sentiment_of_counts pos_count neg_count with
  | Ok r =>
      match field "label" r, field "score" r, field "confidence" r with
      | Some (PStr label), Some (PFloat score), Some (PFloat confidence) =>
          String.eqb label (label_by_counts pos_count neg_count)
          && PrimFloat.leb (-1)%float score && PrimFloat.leb score 1%float
          && PrimFloat.leb 0.5%float confidence && PrimFloat.leb confidence 1%float
          && Bool.eqb (has_field "positive_matches" r) (negb (pos_count + neg_count =? 0))
          && Bool.eqb (has_field "negative_matches" r) (negb (pos_count + neg_count =? 0))
          && Bool.eqb (PrimFloat.eqb confidence 1%float)
                      ((0 <? pos_count + neg_count)
                       && ((pos_count =? 0) || (neg_count =? 0)))
      | _, _, _ => false
      end
  | Raise _ => false
  end.

(** An entry of the outline: its level, title and line number. *)
Definition outline_entry (e : Z * string * Z) : pyval :=
  PDict [ (PStr "level", PInt e.1.1); (PStr "title", PStr e.1.2); (PStr "line", PInt e.2) ].

(** [k] hash signs followed by [rest]: a markdown heading of level [k]. *)
Fixpoint hashes (k : nat) (rest : string) : string :=
  match k with
  | O => rest
  | S k' => String "#" (hashes k' rest)
  end.

(** A computation that prints nothing. *)
Definition quiet {A} (m : Nlp A) : Prop := NlpM.stdout m.1 = [].

(** How often [w] occurs in [words]. *)
Definition occurrences (w : string) (words : list string) : Z :=
  Z.of_nat (length (filter (λ x, x = w) words)).

(* ===================================================================== *)
(** ** Contracts of the collaborators *)
(* ===================================================================== *)

Section contracts.
Context {E : SentenceTransformers} {B : BERTopicLib}.

(** The embedder's contract: one vector per text, in order, each of
    [dim] floats. *)
Definition is_vector (dim : nat) (v : pyval) : Prop :=
  ∃ xs : list float, v = PList (PFloat <$> xs) ∧ length xs = dim.

Definition one_vector_per_text (dim : nat) : Prop :=
  ∀ texts arr, encode (PList texts) = Ok arr →
    ∃ rows, tolist arr = PList rows ∧ length rows = length texts ∧
            Forall (is_vector dim) rows.

(** A clusterer that fits afresh on every call: what a fit yields does
    not depend on the instance it starts from. *)
Definition fresh_fit : Prop :=
  ∀ tm1 tm2 docs,
    match fit_transform tm1 docs, fit_transform tm2 docs with
    | Ok (tm1', ts1), Ok (tm2', ts2) =>
        ts1 = ts2 ∧ get_topic_info tm1' = get_topic_info tm2' ∧
        ∀ t, get_topic tm1' t = get_topic tm2' t
    | Raise e1, Raise e2 => e1 = e2
    | _, _ => False
    end.

End contracts.

(* ===================================================================== *)
(** ** Test doubles for the libraries *)
(* ===================================================================== *)

Module Doubles.

(** An embedder that loads and maps every text to the zero vector. *)
Definition zero_embedder : SentenceTransformers :=
  {| st_import := Ok ();
     st_new := λ _, Ok ();
     encode := λ texts,
       match PyVal.iter texts with
       | Ok items =>
           Ok {| shape := [Z.of_nat (length items); 384];
                 tolist := PList ((λ _, placeholder_vector) <$> items) |}
       | Raise e => Raise e
       end |}.

(** The package is installed but the model cannot be loaded. *)
Definition offline_embedder : SentenceTransformers :=
  {| st_import := Ok ();
     st_new := λ _, Raise (Exception "OSError" "cannot load all-MiniLM-L6-v2");
     encode := encode (SentenceTransformers := zero_embedder) |}.

(** The package is not installed. *)
Definition missing_embedder : SentenceTransformers :=
  {| st_import := Raise (ImportError "No module named 'sentence_transformers'");
     st_new := λ _, Raise (ImportError "No module named 'sentence_transformers'");
     encode := λ _, Raise (ImportError "No module named 'sentence_transformers'") |}.

(** The clusterer of the end-to-end scenario: the first two documents in
    cluster 0, the third in cluster 1, any other an outlier.  The state
    of an instance is whether it has been fitted. *)
Definition scenario_clusterer : BERTopicLib :=
  {| topic_model_t := bool;
     BERTopic_new := Ok false;
     fit_transform := λ _ docs,
       Ok (true, IdsArray (take (length docs) [0; 0; 1] ++ replicate (length docs - 3) (-1)));
     get_topic_info := λ tm, if tm then [-1; 0; 1] else [];
     get_topic := λ tm topic_id,
       if negb tm then TWFalse
       else if topic_id =? 0 then
         TWList [("kailah", PrimFloat.one); ("school", PrimFloat.one);
                 ("daughter", PrimFloat.one)]
       else if topic_id =? 1 then
         TWList [("rent", PrimFloat.one); ("payment", PrimFloat.one)]
       else TWFalse |}.

(** A clusterer that puts every document in cluster 0 and reports no
    representative term for it. *)
Definition silent_clusterer : BERTopicLib :=
  {| topic_model_t := unit;
     BERTopic_new := Ok ();
     fit_transform := λ _ docs, Ok ((), IdsArray (replicate (length docs) 0));
     get_topic_info := λ _, [0];
     get_topic := λ _ _, TWList [] |}.

(** A decoder that knows a few argument texts: what [json.loads] gives
    on them. *)
Definition table_json : JsonLib :=
  {| json_loads := λ s,
       if String.eqb s "[]" then Ok (PList [])
       else if String.eqb s "[1]" then Ok (PList [PInt 1])
       else if String.eqb s "[1, 2]" then Ok (PList [PInt 1; PInt 2])
       else if String.eqb s "{}" then Ok (PDict [])
       else if String.eqb s "42" then Ok (PInt 42)
       else Raise (JSONDecodeError "Expecting value: line 1 column 1 (char 0)") |}.

(** An embedder and a clusterer that refuse anything but strings. *)
Definition all_str (items : list pyval) : bool :=
  forallb (λ v, match v with PStr _ => true | _ => false end) items.

Definition strict_embedder : SentenceTransformers :=
  {| st_import := Ok ();
     st_new := λ _, Ok ();
     encode := λ texts,
       match texts with
       | PList items =>
           if all_str items then encode (SentenceTransformers := zero_embedder) texts
           else Raise (Exception "TypeError" "text input must be of type str")
       | _ => encode (SentenceTransformers := zero_embedder) texts
       end |}.

Definition strict_clusterer : BERTopicLib :=
  {| topic_model_t := unit;
     BERTopic_new := Ok ();
     fit_transform := λ _ docs,
       if all_str docs then Ok ((), IdsArray (replicate (length docs) (-1)))
       else Raise (Exception "TypeError" "documents must be strings");
     get_topic_info := λ _, [-1];
     get_topic := λ _ _, TWFalse |}.


(** Instances as [__init__] leaves them. *)
Definition scenario_detector : TopicDetector (B := scenario_clusterer) :=
  @Build_TopicDetector scenario_clusterer "all-MiniLM-L6-v2" false false.

Definition silent_detector : TopicDetector (B := silent_clusterer) :=
  @Build_TopicDetector silent_clusterer "all-MiniLM-L6-v2" () false.


(** The messages of the end-to-end scenario. *)
Definition scenario_messages : list pyval :=
  [ PStr "I saw my daughter yesterday"; PStr "School call about Kailah";
    PStr "Rent payment due"; PStr "x" ].

End Doubles.

Module NlpDoubles.

(** spaCy is not installed. *)
Definition missing_spacy : SpacyLib :=
  {| nlp_t := unit;
     spacy_import := Raise (ImportError "No module named 'spacy'");
     spacy_load := λ _, Raise (ImportError "No module named 'spacy'");
     spacy_blank := λ _, Raise (ImportError "No module named 'spacy'");
     nlp_call := λ _ _, Raise (ImportError "No module named 'spacy'") |}.

(** A pipeline that finds the same three entities in every text. *)
Definition three_entities : list entity :=
  [ {| ent_text := "Alice"; label_ := "PERSON"; ent_start_char := 0; ent_end_char := 5 |};
    {| ent_text := "Paris"; label_ := "GPE"; ent_start_char := 15; ent_end_char := 20 |};
    {| ent_text := "Bob"; label_ := "PERSON"; ent_start_char := 26; ent_end_char := 29 |} ].

Definition fixed_spacy : SpacyLib :=
  {| nlp_t := unit;
     spacy_import := Ok ();
     spacy_load := λ _, Ok ();
     spacy_blank := λ _, Ok ();
     nlp_call := λ _ _,
       Ok {| ents := three_entities;
             noun_chunks := Ok [ "Alice"; "Paris" ];
             sents := Ok [ {| span_text := "Alice went to Paris with Bob.";
                              start_char := 0; end_char := 30 |} ] |} |}.

(** langdetect is not installed. *)
Definition missing_langdetect : LangdetectLib :=
  {| langdetect_import := Raise (ImportError "No module named 'langdetect'");
     detect_langs := λ _, Raise (ImportError "No module named 'langdetect'") |}.

(** Nothing on standard input. *)
Definition empty_stdin : Stdin := {| stdin_read := Ok "" |}.

End NlpDoubles.

(* ===================================================================== *)
(** ** Containment and the mapper *)
(* ===================================================================== *)

Section mapper_facts.
Context {L : StrLower}.

Lemma append_String (c : ascii) (s t : string) :
  String c s +:+ t = String c (s +:+ t).
Proof. reflexivity. Qed.

Lemma append_Empty (t : string) : EmptyString +:+ t = t.
Proof. reflexivity. Qed.

Lemma startswith_spec (p s : string) :
  PyStr.startswith p s = true ↔ ∃ post, s = p +:+ post.
Proof.
  revert s. induction p as [|a p IH]; intros s; simpl.
  - split; [intros _; by exists s | done].
  - destruct s as [|b s]; simpl.
    + split; [done | by intros [post ?]].
    + setoid_rewrite append_String.
      destruct (ascii_dec a b) as [->|Hne].
      * rewrite IH. split; intros [post Hp]; exists post; congruence.
      * split; [done | intros [post Hp]; congruence].
Qed.

Lemma str_in_spec (kw s : string) :
  PyStr.str_in kw s = true ↔ PyStr.occurs_in kw s.
Proof.
  unfold PyStr.occurs_in. induction s as [|c s IH]; simpl.
  - rewrite orb_false_r, startswith_spec. split.
    + intros [post Hp]. by exists EmptyString, post.
    + intros ([|? ?] & post & Hp); [by exists post | done].
  - rewrite orb_true_iff, startswith_spec, IH. split.
    + intros [[post Hp] | (pre & post & Hp)].
      * by exists EmptyString, post.
      * exists (String c pre), post. by rewrite append_String, Hp.
    + intros ([|c' pre] & post & Hp).
      * left. by exists post.
      * right. exists pre, post. rewrite append_String in Hp. congruence.
Qed.

Lemma str_in_false (kw s : string) :
  PyStr.str_in kw s = false ↔ ¬ PyStr.occurs_in kw s.
Proof. rewrite <- str_in_spec. by destruct (PyStr.str_in kw s). Qed.

(** The loop returns the code of the first item whose keyword occurs in
    the label, and the fallback when none does. *)
Lemma scan_items_spec (d : list (string * string)) (s : string) :
  (∃ pre keyword code post,
      d = pre ++ (keyword, code) :: post ∧
      Forall (λ kc, ¬ PyStr.occurs_in kc.1 s) pre ∧
      PyStr.occurs_in keyword s ∧
      scan_items d s = code)
  ∨ (Forall (λ kc, ¬ PyStr.occurs_in kc.1 s) d ∧ scan_items d s = "GENRL").
Proof.
  induction d as [|[keyword code] rest IH]; simpl.
  - right. by split.
  - destruct (PyStr.str_in keyword s) eqn:Hin.
    + left. exists [], keyword, code, rest.
      rewrite str_in_spec in Hin. by repeat split.
    + rewrite str_in_false in Hin.
      destruct IH as [(pre & kw & c & post & -> & Hpre & Hkw & Hres) | [Hall Hres]].
      * left. exists ((keyword, code) :: pre), kw, c, post.
        repeat split; [by constructor | done | done].
      * right. split; [by constructor | done].
Qed.

(** The codes the loop can return are those of the dictionary and the
    fallback. *)
Lemma scan_items_codes (d : list (string * string)) (s : string) :
  scan_items d s = "GENRL" ∨ scan_items d s ∈ d.*2.
Proof.
  induction d as [|[keyword code] rest IH]; simpl; [by left|].
  destruct (PyStr.str_in keyword s).
  - right. by left.
  - destruct IH as [?|?]; [by left | right; by right].
Qed.

(** No keyword of the dictionary occurs in the empty string. *)
Lemma scan_items_empty (d : list (string * string)) :
  Forall (λ kc, kc.1 ≠ EmptyString) d → scan_items d "" = "GENRL".
Proof.
  induction 1 as [|[keyword code] rest Hk _ IH]; simpl; [done|].
  destruct keyword; [done | by simpl].
Qed.

Example str_in_recall : PyStr.str_in "call" "recall" = true.
Proof. reflexivity. Qed.

Example str_in_needs_all_of_it : PyStr.str_in "call" "calendar" = false.
Proof. reflexivity. Qed.

Example ascii_lower_mixed : PyStr.ascii_lower "School_CALL 42" = "school_call 42".
Proof. reflexivity. Qed.

Example join_two : PyStr.join "_" ["rent"; "payment"] = "rent_payment".
Proof. reflexivity. Qed.

(** C1. For every label, [_map_to_code] lowercases it and scans
    [TOPIC_MAPPING] in source order: either the dictionary splits as
    [pre ++ (keyword, code) :: post] where no keyword of [pre] occurs in
    the lowercased label, [keyword] does occur in it, and the result is
    [code]; or no keyword of the dictionary occurs in it and the result
    is "GENRL".  Matching is by occurrence anywhere: "call" is found
    inside "recall"; the first dictionary match wins over a later,
    longer one and whatever its position in the label. *)
Theorem map_to_code_first_match (label : string) :
  ((∃ pre keyword code post,
       TOPIC_MAPPING = pre ++ (keyword, code) :: post ∧
       Forall (λ kc, ¬ PyStr.occurs_in kc.1 (lower label)) pre ∧
       PyStr.occurs_in keyword (lower label) ∧
       _map_to_code label = code)
   ∨ (Forall (λ kc, ¬ PyStr.occurs_in kc.1 (lower label)) TOPIC_MAPPING ∧
      _map_to_code label = "GENRL"))
  ∧ _map_to_code "recall" = "CALLS"
  ∧ _map_to_code "call_medication" = "CALLS"
  ∧ _map_to_code "bills_teacher_school" = "SCHOOL"
  ∧ _map_to_code "Rent_PAYMENT" = "MONEY"
  ∧ _map_to_code "weather" = "GENRL".
Proof.
  split; [apply scan_items_spec|].
  unfold _map_to_code, _map_to_code_in.
  repeat split; (rewrite lower_ascii by reflexivity); reflexivity.
Qed.

End mapper_facts.

(* ===================================================================== *)
(** ** The pipeline *)
(* ===================================================================== *)

Section pipeline_facts.
Context {L : StrLower} {E : SentenceTransformers} {B : BERTopicLib} {J : JsonLib}.

Lemma lower_empty : lower "" = "".
Proof. by rewrite lower_ascii. Qed.

(** What the loop over the rows leaves in [topic_labels] at key [t]. *)
Lemma label_rows_lookup tm (rows : list Z) (m : gmap Z string) (t : Z) :
  label_rows tm rows m !! t =
    if bool_decide (t ∈ rows) && negb (t =? -1) && tw_truthy (get_topic tm t)
    then Some (make_label (tw_words (get_topic tm t)))
    else m !! t.
Proof.
  revert m. induction rows as [|topic_id rest IH]; intros m; cbn [label_rows].
  - rewrite bool_decide_eq_false_2; [done | by apply not_elem_of_nil].
  - destruct (decide (t = topic_id)) as [->|Hne].
    + rewrite (bool_decide_eq_true_2 (topic_id ∈ topic_id :: rest)) by left.
      simpl. destruct (topic_id =? -1) eqn:Hout; simpl.
      * rewrite IH. simpl. by rewrite andb_false_r.
      * destruct (tw_truthy (get_topic tm topic_id)) eqn:Htw; rewrite IH.
        -- destruct (bool_decide _); simpl; [done | by rewrite lookup_insert_eq].
        -- by rewrite andb_false_r.
    + assert (bool_decide (t ∈ topic_id :: rest) = bool_decide (t ∈ rest)) as ->.
      { apply bool_decide_ext. rewrite elem_of_cons.
        split; [intros [?|?]; done | by right]. }
      destruct (topic_id =? -1); [apply IH|].
      destruct (tw_truthy (get_topic tm topic_id)); rewrite IH; [|done].
      by rewrite lookup_insert_ne.
Qed.

(** The two ways [fit_and_detect] returns. *)
Lemma fit_and_detect_in_Ok d self messages tr self' r :
  fit_and_detect_in d self messages = (tr, Ok (self', r)) →
  ((length messages < 2)%nat ∧
   ∃ arr, encode (PList messages) = Ok arr ∧
     tr = [EvEncode (PList messages)] ∧ self' = self ∧
     r = {| topics := replicate (length messages) (-1);
            topic_labels := ∅;
            topic_codes := replicate (length messages) "GENRL";
            embeddings := tolist arr |})
  ∨ ((2 ≤ length messages)%nat ∧
     ∃ tm ts arr,
       fit_transform (topic_model self) messages = Ok (tm, IdsArray ts) ∧
       encode (PList messages) = Ok arr ∧
       tr = [EvFitTransform messages; EvEncode (PList messages)] ∧
       self' = {| embedding_model := embedding_model self;
                  topic_model := tm; is_fitted := true |} ∧
       r = {| topics := ts;
              topic_labels := label_rows tm (get_topic_info tm) ∅;
              topic_codes := code_for d (label_rows tm (get_topic_info tm) ∅) <$> ts;
              embeddings := tolist arr |}).
Proof.
  unfold fit_and_detect_in, call. intros Hrun.
  destruct (length messages <? 2)%nat eqn:Hlen.
  - left. apply Nat.ltb_lt in Hlen. split; [done|].
    destruct (encode (PList messages)) as [arr|e]; simpl in Hrun; [|done].
    exists arr. by simplify_eq.
  - right. apply Nat.ltb_ge in Hlen. split; [done|].
    destruct (fit_transform (topic_model self) messages) as [[tm ts]|e];
      simpl in Hrun; [|done].
    destruct (encode (PList messages)) as [arr|e]; simpl in Hrun; [|done].
    destruct ts as [ts|ts]; simpl in Hrun; [|done].
    exists tm, ts, arr. by simplify_eq.
Qed.

(** The clustering branch, run forward. *)
Lemma fit_and_detect_in_large d self messages tm ts arr :
  (2 ≤ length messages)%nat →
  fit_transform (topic_model self) messages = Ok (tm, IdsArray ts) →
  encode (PList messages) = Ok arr →
  fit_and_detect_in d self messages =
    ([EvFitTransform messages; EvEncode (PList messages)],
     Ok ({| embedding_model := embedding_model self;
            topic_model := tm; is_fitted := true |},
         {| topics := ts;
            topic_labels := label_rows tm (get_topic_info tm) ∅;
            topic_codes := code_for d (label_rows tm (get_topic_info tm) ∅) <$> ts;
            embeddings := tolist arr |})).
Proof.
  intros Hlen Hfit Harr. unfold fit_and_detect_in.
  apply Nat.ltb_ge in Hlen. by rewrite Hlen, Hfit, Harr.
Qed.

Lemma mapping_codes_closed :
  Forall (λ c, c ∈ TOPIC_CODES) (TOPIC_MAPPING.*2) ∧ "GENRL" ∈ TOPIC_CODES.
Proof. split; apply (bool_decide_unpack _); by vm_compute. Qed.

Lemma code_for_in_codes lbls (t : Z) :
  code_for TOPIC_MAPPING lbls t ∈ TOPIC_CODES.
Proof.
  destruct mapping_codes_closed as [Hall Hfallback].
  unfold code_for, _map_to_code_in. destruct (t =? -1); [done|].
  destruct (scan_items_codes TOPIC_MAPPING (lower (default "" (lbls !! t))))
    as [->|Hin]; [done|].
  by apply (proj1 (Forall_forall _ _) Hall).
Qed.

(** Labels depend on the fitted instance only through its two queries. *)
Lemma label_rows_ext tm1 tm2 :
  get_topic_info tm1 = get_topic_info tm2 →
  (∀ t, get_topic tm1 t = get_topic tm2 t) →
  label_rows tm1 (get_topic_info tm1) ∅ = label_rows tm2 (get_topic_info tm2) ∅.
Proof.
  intros Hinfo Htopic. apply map_eq. intros t.
  by rewrite !label_rows_lookup, Hinfo, Htopic.
Qed.

(** C2. For a message list of length 0 or 1 (and an embedder that
    answers, giving one vector per text), [fit_and_detect] makes a single
    library call, the encoding of the messages: the clusterer is not
    called and the instance is unchanged.  It returns [topics] = -1 for
    every message, an empty [topic_labels], [topic_codes] = "GENRL" for
    every message, and as [embeddings] the embedder's vectors, exactly
    one per message. *)
Theorem small_batch_skips_clustering (dim : nat) self messages arr :
  (length messages < 2)%nat →
  one_vector_per_text dim →
  encode (PList messages) = Ok arr →
  fit_and_detect self messages =
    ([EvEncode (PList messages)],
     Ok (self, {| topics := replicate (length messages) (-1);
                  topic_labels := ∅;
                  topic_codes := replicate (length messages) "GENRL";
                  embeddings := tolist arr |}))
  ∧ ∃ rows, tolist arr = PList rows ∧ length rows = length messages ∧
            Forall (is_vector dim) rows.
Proof.
  intros Hlen Hcontract Harr. split; [|by apply Hcontract].
  unfold fit_and_detect, fit_and_detect_in.
  apply Nat.ltb_lt in Hlen. by rewrite Hlen, Harr.
Qed.

(** C4. Whenever [fit_and_detect] returns a result, in either branch,
    [topics] and [topic_codes] have the same length and every element of
    [topic_codes] is one of the ten topic codes; that length is the
    number of messages, given that the clusterer answers with one topic
    id per document. *)
Theorem result_lengths_and_codes self messages tr self' r :
  fit_and_detect self messages = (tr, Ok (self', r)) →
  (∀ tm ts, fit_transform (topic_model self) messages = Ok (tm, ts) →
            length ts = length messages) →
  length (topics r) = length (topic_codes r) ∧
  length (topic_codes r) = length messages ∧
  Forall (λ c, c ∈ TOPIC_CODES) (topic_codes r).
Proof.
  intros Hrun Hcontract.
  destruct (fit_and_detect_in_Ok _ _ _ _ _ _ Hrun)
    as [[_ (arr & _ & _ & _ & ->)] | [_ (tm & ts & arr & Hfit & _ & _ & _ & ->)]];
    simpl.
  - rewrite !length_replicate. repeat split.
    apply Forall_replicate, mapping_codes_closed.
  - pose proof (Hcontract _ _ Hfit) as Hids. cbn [ids_of] in Hids.
    rewrite length_fmap, Hids. repeat split.
    apply Forall_fmap, Forall_true. intros t. apply code_for_in_codes.
Qed.

(** C5. Whenever [fit_and_detect] returns a result, whatever the keyword
    dictionary [d] and the labels of the clusters: if the topic id of
    message [i] is -1 then its topic code is "GENRL". *)
Theorem outlier_gets_GENRL d self messages tr self' r (i : nat) :
  fit_and_detect_in d self messages = (tr, Ok (self', r)) →
  topics r !! i = Some (-1) →
  topic_codes r !! i = Some "GENRL".
Proof.
  intros Hrun Hi.
  destruct (fit_and_detect_in_Ok _ _ _ _ _ _ Hrun)
    as [[_ (arr & _ & _ & _ & ->)] | [_ (tm & ts & arr & _ & _ & _ & _ & ->)]];
    simpl in *.
  - apply lookup_replicate in Hi as [_ Hi]. by apply lookup_replicate.
  - by rewrite list_lookup_fmap, Hi.
Qed.

(** C8. With a clusterer that fits afresh on every call (the embedder is
    a function of the texts), a second call of [fit_and_detect] on the
    same instance with the same messages makes the same library calls and
    returns the same result as the first: same [topics], [topic_labels],
    [topic_codes] and [embeddings]. *)
Theorem second_call_same_result self messages tr self1 r :
  fresh_fit →
  fit_and_detect self messages = (tr, Ok (self1, r)) →
  ∃ self2, fit_and_detect self1 messages = (tr, Ok (self2, r)).
Proof.
  intros Hfresh Hrun.
  destruct (fit_and_detect_in_Ok _ _ _ _ _ _ Hrun)
    as [[_ (arr & _ & _ & -> & _)]
       | [Hlen (tm & ts & arr & Hfit & Harr & -> & -> & ->)]].
  - by exists self.
  - specialize (Hfresh (topic_model self) tm messages). rewrite Hfit in Hfresh.
    destruct (fit_transform tm messages) as [[tm2 ts2]|e] eqn:Hfit2; [|done].
    destruct Hfresh as (<- & Hinfo & Htopic).
    eexists. unfold fit_and_detect.
    erewrite fit_and_detect_in_large; [|exact Hlen|exact Hfit2|exact Harr].
    rewrite (label_rows_ext _ _ Hinfo Htopic). reflexivity.
Qed.

(** C9. Whenever [fit_and_detect] returns a result: if message [i] has a
    topic id [t] other than -1 and the fitted clusterer reports no
    representative terms for [t] ([get_topic] gives [False] or an empty
    list), then [topic_labels] has no entry for [t] and the topic code of
    message [i] is "GENRL". *)
Theorem cluster_without_terms_gets_GENRL self messages tr self' r (i : nat) (t : Z) :
  fit_and_detect self messages = (tr, Ok (self', r)) →
  topics r !! i = Some t →
  t ≠ -1 →
  tw_truthy (get_topic (topic_model self') t) = false →
  topic_labels r !! t = None ∧ topic_codes r !! i = Some "GENRL".
Proof.
  intros Hrun Hi Ht Hterms.
  destruct (fit_and_detect_in_Ok _ _ _ _ _ _ Hrun)
    as [[_ (arr & _ & _ & _ & ->)] | [_ (tm & ts & arr & _ & _ & _ & -> & ->)]];
    simpl in *.
  - apply lookup_replicate in Hi as [? _]. congruence.
  - assert (label_rows tm (get_topic_info tm) ∅ !! t = None) as Hnone.
    { rewrite label_rows_lookup, Hterms, andb_false_r. apply lookup_empty. }
    split; [done|].
    rewrite list_lookup_fmap, Hi. simpl. f_equal.
    unfold code_for, _map_to_code_in.
    apply Z.eqb_neq in Ht. rewrite Ht, Hnone.
    change (default "" None) with "". rewrite lower_empty.
    apply scan_items_empty, (bool_decide_unpack _). by vm_compute.
Qed.



(** The trace of [fit_and_detect] holds library calls only: it prints
    nothing. *)
Lemma fit_and_detect_prints_nothing d self messages :
  stdout (fit_and_detect_in d self messages).1 = [].
Proof.
  unfold fit_and_detect_in, call.
  destruct (length messages <? 2)%nat.
  - by destruct (encode (PList messages)).
  - destruct (fit_transform (topic_model self) messages) as [[tm ts]|e]; [|done].
    destruct (encode (PList messages)); [|done]. by destruct ts.
Qed.

(** A failure to load the embedding model makes the constructor raise. *)
Lemma init_propagates_load_failure e :
  st_new "all-MiniLM-L6-v2" = Raise e →
  __init__ = ([EvSentenceTransformer "all-MiniLM-L6-v2"], Raise e).
Proof. intros Hnew. unfold __init__, call. by rewrite Hnew. Qed.

(** C10. Called with no positional argument, [main] prints the object
    {"error": "No messages provided"} and exits with status 1; it
    decodes nothing and calls no library. *)
Theorem main_without_argument argv :
  (length argv < 2)%nat →
  main argv = ([EvPrint (error_dict "No messages provided")], Raise (SystemExit 1))
  ∧ field "error" (error_dict "No messages provided") = Some (PStr "No messages provided")
  ∧ exit_status (main argv).2 = 1.
Proof.
  intros Hlen. apply Nat.ltb_lt in Hlen.
  unfold main. rewrite Hlen. by repeat split.
Qed.

(** C6, as the code has it. When [json.loads] raises [JSONDecodeError]
    on the argument, or decodes it to a value that is not a list, [main]
    prints one object, which has an "error" field, and exits with status
    1; no adapter has been called. *)
Theorem main_rejects_undecodable_and_non_list argv arg :
  argv !! 1%nat = Some arg →
  (∃ msg, json_loads arg = Raise (JSONDecodeError msg))
  ∨ (∃ v, json_loads arg = Ok v ∧ ∀ items, v ≠ PList items) →
  ∃ msg,
    main argv = ([EvJsonLoads arg; EvPrint (error_dict msg)], Raise (SystemExit 1))
    ∧ has_field "error" (error_dict msg) = true
    ∧ exit_status (main argv).2 = 1
    ∧ existsb is_adapter_call (main argv).1 = false.
Proof.
  intros Harg Hbad.
  assert ((length argv <? 2)%nat = false) as Hlen.
  { apply Nat.ltb_ge. apply lookup_lt_Some in Harg. lia. }
  unfold main. rewrite Hlen, Harg. cbn [default from_option id]. unfold call.
  destruct Hbad as [[msg ->] | (v & -> & Hv)].
  - by exists ("Invalid JSON: " +:+ msg).
  - exists "Messages must be a list".
    destruct v; try done. by destruct (Hv items).
Qed.

(** A decoded list passes the check of [main] whatever its elements: the
    embedding model is loaded next, and no object with an "error" field
    is ever printed. *)
Lemma main_accepts_any_list argv arg items :
  argv !! 1%nat = Some arg →
  json_loads arg = Ok (PList items) →
  ∃ tr r,
    main argv = (EvJsonLoads arg :: EvSentenceTransformer "all-MiniLM-L6-v2" :: tr, r)
    ∧ Forall (λ v, has_field "error" v = false) (stdout (main argv).1).
Proof.
  intros Harg Hloads.
  assert ((length argv <? 2)%nat = false) as Hlen.
  { apply Nat.ltb_ge. apply lookup_lt_Some in Harg. lia. }
  unfold main. rewrite Hlen, Harg. cbn [default from_option id].
  unfold call, __init__. rewrite Hloads. unfold fit_and_detect.
  pose proof (fit_and_detect_prints_nothing TOPIC_MAPPING) as Hquiet.
  destruct (st_new "all-MiniLM-L6-v2"); [|by eexists _, _].
  destruct BERTopic_new as [tm|e]; [|by eexists _, _].
  cbn -[fit_and_detect_in].
  match goal with |- context [fit_and_detect_in _ ?d items] => specialize (Hquiet d items) end.
  destruct (fit_and_detect_in _ _ items) as [tr' [[self' r]|e]];
    cbn -[result_dict] in *; eexists _, _; (split; [reflexivity|]);
    unfold stdout in *; rewrite ?omap_app, ?Hquiet; cbn -[result_dict]; repeat constructor.
Qed.

End pipeline_facts.

(* ===================================================================== *)
(** ** The embedding command of nlp_runner.py *)
(* ===================================================================== *)

Section embed_facts.
Context {E : SentenceTransformers}.

Lemma fmap_const_replicate {A C} (c : C) (l : list A) :
  (λ _, c) <$> l = replicate (length l) c.
Proof. induction l as [|a l IH]; csimpl; [done | by rewrite IH]. Qed.

(** C7, as the code has it. In [embed_text], when no model is loaded yet
    and importing or constructing it raises [ImportError], the call does
    not fail: for texts that can be iterated it returns one vector of 384
    zeros per text, "model" = "unavailable" and "dimensions" = 384, and
    the model is left unloaded. *)
Theorem embed_text_placeholder_on_import_error args msg items :
  st_import = Raise (ImportError msg)
  ∨ (st_import = Ok () ∧ st_new "all-MiniLM-L6-v2" = Raise (ImportError msg)) →
  PyVal.iter (texts_of_args args) = Ok items →
  ∃ tr,
    embed_text args None =
      (tr, Ok (None,
               PDict [ (PStr "embeddings",
                        PList (replicate (length items) placeholder_vector));
                       (PStr "model", PStr "unavailable");
                       (PStr "dimensions", PInt 384) ]))
    ∧ placeholder_vector = PList (replicate 384 (PFloat PrimFloat.zero))
    ∧ existsb (λ e, match e with EvEncode _ => true | _ => false end) tr = false.
Proof.
  intros Himport Hiter. unfold embed_text, get_sentence_model, call.
  destruct Himport as [-> | [-> ->]]; cbn; rewrite Hiter; cbn;
    rewrite fmap_const_replicate; by eexists.
Qed.

(** Any other failure to load the model is not recovered: the call
    raises. *)
Lemma embed_text_propagates_load_failure args cls msg :
  st_import = Ok () →
  st_new "all-MiniLM-L6-v2" = Raise (Exception cls msg) →
  embed_text args None =
    ([EvImportSentenceTransformers; EvSentenceTransformer "all-MiniLM-L6-v2"],
     Raise (Exception cls msg)).
Proof.
  intros Himport Hnew. unfold embed_text, get_sentence_model, call.
  by rewrite Himport, Hnew.
Qed.

End embed_facts.

(* ===================================================================== *)
(** ** Concrete runs *)
(* ===================================================================== *)

Section runs.
Import Doubles.

Lemma zero_embedder_contract : one_vector_per_text (E := zero_embedder) 384.
Proof.
  intros texts arr Henc. injection Henc as <-. cbn [tolist].
  eexists. split; [reflexivity|]. split; [by rewrite length_fmap|].
  apply Forall_fmap, Forall_true. intros text.
  exists (replicate 384 PrimFloat.zero). by rewrite fmap_replicate, length_replicate.
Qed.

Lemma scenario_clusterer_fresh : fresh_fit (B := scenario_clusterer).
Proof. by intros tm1 tm2 docs. Qed.

Lemma small_batch_skips_clustering_witness :
  ∃ arr,
    encode (SentenceTransformers := zero_embedder) (PList [PStr "hello"]) = Ok arr ∧
    fit_and_detect (E := zero_embedder) scenario_detector [PStr "hello"] =
      ([EvEncode (PList [PStr "hello"])],
       Ok (scenario_detector,
           {| topics := [-1]; topic_labels := ∅; topic_codes := ["GENRL"];
              embeddings := tolist arr |})).
Proof.
  eexists. split; [reflexivity|].
  refine (proj1 (small_batch_skips_clustering (E := zero_embedder) 384
                   scenario_detector [PStr "hello"] _ _ zero_embedder_contract eq_refl)).
  simpl. lia.
Defined.


Lemma result_lengths_and_codes_witness :
  ∃ tr self' r,
    fit_and_detect (E := zero_embedder) scenario_detector scenario_messages
      = (tr, Ok (self', r)) ∧
    length (topics r) = length (topic_codes r) ∧
    length (topic_codes r) = 4%nat ∧
    Forall (λ c, c ∈ TOPIC_CODES) (topic_codes r).
Proof.
  eexists _, _, _. split; [vm_compute; reflexivity|].
  eapply (result_lengths_and_codes (E := zero_embedder) scenario_detector scenario_messages).
  - vm_compute. reflexivity.
  - intros tm ts Hfit. injection Hfit as _ <-. reflexivity.
Defined.

Lemma outlier_gets_GENRL_witness :
  ∃ tr self' r,
    fit_and_detect_in (E := zero_embedder) TOPIC_MAPPING scenario_detector scenario_messages
      = (tr, Ok (self', r)) ∧
    topics r !! 3%nat = Some (-1) ∧
    topic_codes r !! 3%nat = Some "GENRL".
Proof.
  eexists _, _, _. split; [vm_compute; reflexivity|]. split; [reflexivity|].
  eapply (outlier_gets_GENRL (E := zero_embedder) TOPIC_MAPPING scenario_detector
            scenario_messages).
  - vm_compute. reflexivity.
  - reflexivity.
Defined.

Lemma second_call_same_result_witness :
  ∃ tr self1 r,
    fit_and_detect (E := zero_embedder) scenario_detector scenario_messages
      = (tr, Ok (self1, r)) ∧
    ∃ self2,
      fit_and_detect (E := zero_embedder) self1 scenario_messages = (tr, Ok (self2, r)).
Proof.
  eexists _, _, _. split; [vm_compute; reflexivity|].
  eapply (second_call_same_result (E := zero_embedder) scenario_detector scenario_messages).
  - exact scenario_clusterer_fresh.
  - vm_compute. reflexivity.
Defined.

Lemma cluster_without_terms_gets_GENRL_witness :
  ∃ tr self' r,
    fit_and_detect (E := zero_embedder) silent_detector [PStr "a"; PStr "b"]
      = (tr, Ok (self', r)) ∧
    topics r !! 0%nat = Some 0 ∧
    topic_labels r !! 0 = None ∧
    topic_codes r !! 0%nat = Some "GENRL".
Proof.
  eexists _, _, _. split; [vm_compute; reflexivity|]. split; [reflexivity|].
  eapply (cluster_without_terms_gets_GENRL (E := zero_embedder) silent_detector
            [PStr "a"; PStr "b"]).
  - vm_compute. reflexivity.
  - reflexivity.
  - done.
  - reflexivity.
Defined.

Lemma main_without_argument_witness :
  main (E := zero_embedder) (B := scenario_clusterer) (J := table_json)
       ["topic_detector.py"]
    = ([EvPrint (error_dict "No messages provided")], Raise (SystemExit 1)).
Proof.
  refine (proj1 (main_without_argument (E := zero_embedder) (B := scenario_clusterer)
                   (J := table_json) ["topic_detector.py"] _)).
  simpl. lia.
Defined.

Lemma main_rejects_undecodable_and_non_list_witness :
  ∃ msg,
    main (E := zero_embedder) (B := scenario_clusterer) (J := table_json)
         ["topic_detector.py"; "[1, 2"]
      = ([EvJsonLoads "[1, 2"; EvPrint (error_dict msg)], Raise (SystemExit 1))
    ∧ has_field "error" (error_dict msg) = true
    ∧ exit_status (main (E := zero_embedder) (B := scenario_clusterer) (J := table_json)
                        ["topic_detector.py"; "[1, 2"]).2 = 1
    ∧ existsb is_adapter_call
        (main (E := zero_embedder) (B := scenario_clusterer) (J := table_json)
              ["topic_detector.py"; "[1, 2"]).1 = false.
Proof.
  refine (main_rejects_undecodable_and_non_list (E := zero_embedder)
            (B := scenario_clusterer) (J := table_json)
            ["topic_detector.py"; "[1, 2"] "[1, 2" eq_refl _).
  left. eexists. reflexivity.
Defined.

Lemma embed_text_placeholder_on_import_error_witness :
  ∃ tr,
    embed_text (E := missing_embedder) {[ "texts" := PList [PStr "a"; PStr "b"] ]} None =
      (tr, Ok (None,
               PDict [ (PStr "embeddings", PList [placeholder_vector; placeholder_vector]);
                       (PStr "model", PStr "unavailable");
                       (PStr "dimensions", PInt 384) ]))
    ∧ placeholder_vector = PList (replicate 384 (PFloat PrimFloat.zero))
    ∧ existsb (λ e, match e with EvEncode _ => true | _ => false end) tr = false.
Proof.
  refine (embed_text_placeholder_on_import_error (E := missing_embedder)
            {[ "texts" := PList [PStr "a"; PStr "b"] ]}
            "No module named 'sentence_transformers'" [PStr "a"; PStr "b"] _ _).
  - left. reflexivity.
  - reflexivity.
Defined.

(** C6 as stated fails on a list of numbers: the argument [1, 2] decodes
    to a list that holds no string, yet [main] loads both models and runs
    them.  With libraries that accept the numbers the result is printed
    and the exit status is 0; with libraries that refuse them the
    exception escapes after the models were loaded and the clusterer
    called, and nothing is printed.  Either way no object with an "error"
    field is printed before the adapters are invoked. *)
Lemma main_accepts_non_string_items :
  json_loads (JsonLib := table_json) "[1, 2]" = Ok (PList [PInt 1; PInt 2])
  ∧ (let run := main (E := zero_embedder) (B := scenario_clusterer) (J := table_json)
                     ["topic_detector.py"; "[1, 2]"] in
     existsb is_adapter_call run.1 = true
     ∧ existsb (has_field "error") (stdout run.1) = false
     ∧ exit_status run.2 = 0)
  ∧ main (E := strict_embedder) (B := strict_clusterer) (J := table_json)
         ["topic_detector.py"; "[1, 2]"]
    = ([EvJsonLoads "[1, 2]"; EvSentenceTransformer "all-MiniLM-L6-v2"; EvBERTopic;
        EvFitTransform [PInt 1; PInt 2]],
       Raise (Exception "TypeError" "documents must be strings")).
Proof. repeat split; vm_compute; reflexivity. Qed.

(** C7 as stated fails when the model cannot be loaded: the constructor
    of [TopicDetector] raises, [main] of topic_detector.py ends on that
    exception having printed nothing, and [embed_text] raises as well
    unless the failure is an [ImportError]. *)
Lemma load_failure_is_fatal :
  st_new (SentenceTransformers := offline_embedder) "all-MiniLM-L6-v2"
    = Raise (Exception "OSError" "cannot load all-MiniLM-L6-v2")
  ∧ main (E := offline_embedder) (B := scenario_clusterer) (J := table_json)
         ["topic_detector.py"; "[]"]
    = ([EvJsonLoads "[]"; EvSentenceTransformer "all-MiniLM-L6-v2"],
       Raise (Exception "OSError" "cannot load all-MiniLM-L6-v2"))
  ∧ embed_text (E := offline_embedder) {[ "texts" := PList [PStr "a"] ]} None
    = ([EvImportSentenceTransformers; EvSentenceTransformer "all-MiniLM-L6-v2"],
       Raise (Exception "OSError" "cannot load all-MiniLM-L6-v2")).
Proof. repeat split; vm_compute; reflexivity. Qed.


End runs.

(* ===================================================================== *)
(** ** More on topic_detector.py *)
(* ===================================================================== *)

Section detector_facts.
Context {L : StrLower} {E : SentenceTransformers} {B : BERTopicLib} {J : JsonLib}.

Lemma dictionary_entries_checked :
  Forall (λ kc, PyStr.is_ascii kc.1 = true ∧
                scan_items TOPIC_MAPPING (PyStr.ascii_lower kc.1) = kc.2)
         TOPIC_MAPPING.
Proof.
  unfold TOPIC_MAPPING at 2.
  repeat (apply Forall_cons; split; [split; vm_compute; reflexivity|]).
  apply Forall_nil_2.
Qed.

(** X1. Every keyword of the dictionary, taken as a label, maps to its
    own code: no entry is shadowed by an earlier one. *)
Theorem every_keyword_reaches_its_code :
  Forall (λ kc, _map_to_code kc.1 = kc.2) TOPIC_MAPPING.
Proof.
  eapply Forall_impl; [exact dictionary_entries_checked|].
  intros [kw code] [Hascii Hscan]. unfold _map_to_code, _map_to_code_in.
  by rewrite lower_ascii.
Qed.

(** X2. In a returned result, [topic_labels] has a key [t] exactly when
    [t] is a row of the topic info other than -1 whose terms are not
    empty, and its label is then built from those terms; the code of a
    message whose cluster has a label is the mapper's code for that
    label. *)
Theorem labels_and_codes_of_result self messages tr self' r :
  fit_and_detect self messages = (tr, Ok (self', r)) →
  (2 ≤ length messages)%nat →
  (∀ t l, topic_labels r !! t = Some l ↔
       t ∈ get_topic_info (topic_model self') ∧ t ≠ -1 ∧
       tw_truthy (get_topic (topic_model self') t) = true ∧
       l = make_label (tw_words (get_topic (topic_model self') t)))
  ∧ (∀ (i : nat) t l, topics r !! i = Some t → topic_labels r !! t = Some l →
       topic_codes r !! i = Some (_map_to_code l)).
Proof.
  intros Hrun Hlen.
  destruct (fit_and_detect_in_Ok _ _ _ _ _ _ Hrun)
    as [[? _] | [_ (tm & ts & arr & _ & _ & _ & -> & ->)]]; [lia|].
  cbn [topics topic_labels topic_codes topic_model].
  assert (∀ t l, label_rows tm (get_topic_info tm) ∅ !! t = Some l ↔
            t ∈ get_topic_info tm ∧ t ≠ -1 ∧ tw_truthy (get_topic tm t) = true ∧
            l = make_label (tw_words (get_topic tm t))) as Hkeys.
  { intros t l. rewrite label_rows_lookup, lookup_empty.
    destruct (bool_decide (t ∈ get_topic_info tm)) eqn:Hin;
      [apply bool_decide_eq_true in Hin | apply bool_decide_eq_false in Hin];
      destruct (t =? -1) eqn:Hout;
      [apply Z.eqb_eq in Hout | apply Z.eqb_neq in Hout
      | apply Z.eqb_eq in Hout | apply Z.eqb_neq in Hout];
      destruct (tw_truthy (get_topic tm t)); simpl; split;
      try (intros (? & ? & ? & ?)); try done; try (intros [= <-]; done); congruence. }
  split; [exact Hkeys|].
  intros i t l Hi Hl. rewrite list_lookup_fmap, Hi. simpl. f_equal.
  unfold code_for, _map_to_code.
  destruct (proj1 (Hkeys t l) Hl) as (_ & Hout & _).
  apply Z.eqb_neq in Hout. by rewrite Hout, Hl.
Qed.


(** X4. Every run of [main] ends in one of three ways: one error object
    printed, exit status 1, and no adapter called; or one result dict
    printed and a normal end; or nothing printed and an exception that
    escapes. An "error" object is never printed after an adapter
    call, and a result never comes with a failure. *)
Theorem main_ends_in_three_ways argv :
  (∃ msg, stdout (main argv).1 = [error_dict msg] ∧
          (main argv).2 = Raise (SystemExit 1) ∧
          existsb is_adapter_call (main argv).1 = false)
  ∨ (∃ res, stdout (main argv).1 = [result_dict res] ∧ (main argv).2 = Ok ())
  ∨ (∃ e, stdout (main argv).1 = [] ∧ (main argv).2 = Raise e).
Proof.
  unfold main. destruct (length argv <? 2)%nat; [left; by eexists|].
  generalize (default "" (argv !! 1%nat)). intros arg. unfold call.
  destruct (json_loads arg) as [v|e]; cycle 1.
  { destruct e; try (right; right; by eexists). left. by eexists. }
  destruct v; try (left; by eexists).
  unfold __init__, call, fit_and_detect.
  destruct (st_new "all-MiniLM-L6-v2"); [|right; right; by eexists].
  destruct BERTopic_new as [tm|e]; [|right; right; by eexists].
  cbn -[fit_and_detect_in].
  match goal with
  | |- context [fit_and_detect_in ?d ?self items] =>
      pose proof (fit_and_detect_prints_nothing d self items) as Hquiet;
      destruct (fit_and_detect_in d self items) as [tr' [[self' r]|e]]
  end; cbn -[result_dict] in *; right; [left|right]; eexists;
    unfold stdout in *; rewrite ?omap_app, ?Hquiet; by cbn -[result_dict].
Qed.

(** X5. [get_embedding] of a text is the first vector of what
    [fit_and_detect] returns as [embeddings] for the batch holding that
    text alone, and the only one when the embedder gives one vector per
    text. *)
Theorem get_embedding_agrees_with_batch (dim : nat) self text tr row tr' self' r :
  one_vector_per_text dim →
  get_embedding text = (tr, Ok row) →
  fit_and_detect self [text] = (tr', Ok (self', r)) →
  embeddings r = PList [row] ∧ is_vector dim row.
Proof.
  intros Hcontract Hget Hrun.
  destruct (fit_and_detect_in_Ok _ _ _ _ _ _ Hrun)
    as [[_ (arr & Harr & _ & _ & ->)] | [Hlen _]]; [|simpl in Hlen; lia].
  unfold get_embedding, call in Hget. rewrite Harr in Hget. cbn in Hget.
  destruct (Hcontract _ _ Harr) as (rows & Hrows & Hn & Hvec).
  rewrite Hrows in Hget. cbn [embeddings]. rewrite Hrows.
  destruct rows as [|row' [|? ?]]; simpl in Hn; try lia.
  cbn in Hget. simplify_eq. split; [done|]. by inversion Hvec.
Qed.

End detector_facts.

(* ===================================================================== *)
(** ** nlp_runner.py: sentiment *)
(* ===================================================================== *)

Section sentiment_facts.
Context {L : StrLower} {R : StrRuntime}.

Lemma lexicon_sizes : size positive_words = 12%nat ∧ size negative_words = 12%nat.
Proof. split; vm_compute; reflexivity. Qed.

Lemma sentiment_checked_table :
  forallb (λ p, forallb (λ n, sentiment_checked p n) (seqZ 0 13)) (seqZ 0 13) = true.
Proof. vm_compute. reflexivity. Qed.

Lemma sentiment_checked_upto_12 (p n : Z) :
  0 ≤ p ≤ 12 → 0 ≤ n ≤ 12 → sentiment_checked p n = true.
Proof.
  intros Hp Hn. pose proof sentiment_checked_table as Hall.
  rewrite forallb_forall in Hall.
  specialize (Hall p). rewrite <- list_elem_of_In, elem_of_seqZ in Hall.
  specialize (Hall ltac:(lia)). rewrite forallb_forall in Hall.
  apply Hall. rewrite <- list_elem_of_In, elem_of_seqZ. lia.
Qed.

(** X6. For a text that is a string, [analyze_sentiment] returns a dict
    and never raises. With [pos] and [neg] the numbers of distinct words
    of the lowercased text found in the positive and in the negative
    lexicon, the label is "positive" when 2 pos > 3 neg, "negative" when
    2 neg > 3 pos and "neutral" otherwise; the score lies in [-1, 1] and
    the confidence in [0.5, 1], reaching 1 exactly when words of one
    lexicon only are found; the fields "positive_matches" and
    "negative_matches" are present exactly when some word is found. *)
Theorem sentiment_label_and_bounds (args : gmap string pyval) (s : string) (pos neg : Z) :
  default (PStr "") (args !! "text") = PStr s →
  pos = Z.of_nat (size (list_to_set (split_ws (lower s)) ∩ positive_words)) →
  neg = Z.of_nat (size (list_to_set (split_ws (lower s)) ∩ negative_words)) →
  ∃ r score confidence,
    analyze_sentiment args = Ok r ∧
    field "label" r = Some (PStr (label_by_counts pos neg)) ∧
    field "score" r = Some (PFloat score) ∧
    field "confidence" r = Some (PFloat confidence) ∧
    PrimFloat.leb (-1)%float score = true ∧ PrimFloat.leb score 1%float = true ∧
    PrimFloat.leb 0.5%float confidence = true ∧ PrimFloat.leb confidence 1%float = true ∧
    (PrimFloat.eqb confidence 1%float = true ↔ 0 < pos + neg ∧ (pos = 0 ∨ neg = 0)) ∧
    (has_field "positive_matches" r = true ↔ 0 < pos + neg) ∧
    (has_field "negative_matches" r = true ↔ 0 < pos + neg).
Proof.
  intros Htext Hpos Hneg.
  destruct lexicon_sizes as [Hsp Hsn].
  assert (0 ≤ pos ≤ 12) as Hp.
  { pose proof (subseteq_size _ _
      (intersection_subseteq_r (list_to_set (split_ws (lower s))) positive_words)) as Hle.
    rewrite Hsp in Hle. lia. }
  assert (0 ≤ neg ≤ 12) as Hn.
  { pose proof (subseteq_size _ _
      (intersection_subseteq_r (list_to_set (split_ws (lower s))) negative_words)) as Hle.
    rewrite Hsn in Hle. lia. }
  pose proof (sentiment_checked_upto_12 pos neg Hp Hn) as Hchk.
  unfold analyze_sentiment. rewrite Htext. cbn [PyOps.str_method mbind outcome_bind].
  rewrite <- Hpos, <- Hneg. unfold sentiment_checked in Hchk.
  destruct (sentiment_of_counts pos neg) as [r|e]; [|discriminate Hchk].
  destruct (field "label" r) as [[| | | |label| |]|] eqn:Hfl; try discriminate Hchk.
  destruct (field "score" r) as [[| | |score| | |]|] eqn:Hfs; try discriminate Hchk.
  destruct (field "confidence" r) as [[| | |confidence| | |]|] eqn:Hfc;
    try discriminate Hchk.
  apply andb_prop in Hchk as [Hchk Hone]. apply andb_prop in Hchk as [Hchk Hnegf].
  apply andb_prop in Hchk as [Hchk Hposf]. apply andb_prop in Hchk as [Hchk Hc1].
  apply andb_prop in Hchk as [Hchk Hc05]. apply andb_prop in Hchk as [Hchk Hs1].
  apply andb_prop in Hchk as [Hlabel Hsm1].
  apply String.eqb_eq in Hlabel as ->.
  apply Bool.eqb_prop in Hone, Hnegf, Hposf.
  assert (negb (pos + neg =? 0) = true ↔ 0 < pos + neg) as Hsome.
  { rewrite negb_true_iff, Z.eqb_neq. lia. }
  exists r, score, confidence.
  split; [reflexivity|]. split; [exact Hfl|]. split; [exact Hfs|].
  split; [exact Hfc|]. split; [exact Hsm1|]. split; [exact Hs1|].
  split; [exact Hc05|]. split; [exact Hc1|].
  split; [|split].
  - rewrite Hone, andb_true_iff, orb_true_iff, Z.ltb_lt, !Z.eqb_eq. tauto.
  - by rewrite Hposf.
  - by rewrite Hnegf.
Qed.

End sentiment_facts.

(* ===================================================================== *)
(** ** nlp_runner.py: keywords *)
(* ===================================================================== *)

Section keyword_facts.
Context {L : StrLower} {R : StrRuntime}.

Lemma dict_add_keys k n (d : list (string * Z)) :
  (PyOps.dict_add k n d).*1 = if bool_decide (k ∈ d.*1) then d.*1 else d.*1 ++ [k].
Proof.
  induction d as [|[k' v] d IH].
  - by rewrite bool_decide_eq_false_2 by apply not_elem_of_nil.
  - cbn [PyOps.dict_add]. destruct (String.eqb_spec k' k) as [->|Hne].
    + by rewrite bool_decide_eq_true_2 by left.
    + rewrite !fmap_cons, IH. cbn [fst]. destruct (bool_decide (k ∈ d.*1)) eqn:Hin.
      * apply bool_decide_eq_true in Hin. by rewrite bool_decide_eq_true_2 by (by right).
      * apply bool_decide_eq_false in Hin.
        rewrite bool_decide_eq_false_2; [done|].
        rewrite elem_of_cons. intros [?|?]; congruence.
Qed.

Lemma dict_add_NoDup k n (d : list (string * Z)) :
  NoDup d.*1 → NoDup (PyOps.dict_add k n d).*1.
Proof.
  intros Hd. rewrite dict_add_keys. case_bool_decide as Hin; [done|].
  apply NoDup_app. split; [done|]. split; [|apply NoDup_singleton].
  intros x Hx Hk. apply list_elem_of_singleton in Hk. congruence.
Qed.

Lemma dict_add_lookup k n (d : list (string * Z)) :
  (list_to_map (PyOps.dict_add k n d) : gmap string Z)
  = <[k := default 0 ((list_to_map d : gmap string Z) !! k) + n]> (list_to_map d).
Proof.
  induction d as [|[k' v] d IH]; simpl.
  - by rewrite lookup_empty.
  - destruct (String.eqb_spec k' k) as [->|Hne]; simpl.
    + by rewrite lookup_insert_eq, insert_insert_eq.
    + rewrite IH, lookup_insert_ne by done. by apply insert_insert_ne.
Qed.

Lemma count_long_words_from (acc : list (string * Z)) (words : list string) (w : string) :
  let freq := foldl (λ freq w, if 3 <? PyOps.str_len w then PyOps.dict_add w 1 freq else freq)
                    acc words in
  (list_to_map freq : gmap string Z) !! w =
    if (3 <? PyOps.str_len w) && (0 <? occurrences w words)
    then Some (default 0 ((list_to_map acc : gmap string Z) !! w) + occurrences w words)
    else (list_to_map acc : gmap string Z) !! w.
Proof.
  unfold occurrences. revert acc. induction words as [|x words IH]; intros acc; cbn [foldl].
  - by rewrite andb_false_r.
  - cbn zeta in IH. rewrite IH. clear IH. rewrite filter_cons.
    destruct (decide (x = w)) as [->|Hne].
    + destruct (3 <? PyOps.str_len w) eqn:Hlong; [|by simpl].
      rewrite dict_add_lookup, lookup_insert_eq. cbn [length andb default from_option id].
      replace (0 <? Z.of_nat (S (length (filter (λ x, x = w) words)))) with true
        by (symmetry; apply Z.ltb_lt; lia).
      destruct (0 <? _) eqn:Hpos; f_equal; [lia|].
      apply Z.ltb_ge in Hpos. lia.
    + destruct (3 <? PyOps.str_len x) eqn:Hlong; [|done].
      by rewrite dict_add_lookup, lookup_insert_ne.
Qed.

Lemma count_long_words_NoDup (words : list string) : NoDup (count_long_words words).*1.
Proof.
  unfold count_long_words. generalize (NoDup_nil_2 (A := string)).
  change (@nil string) with (([] : list (string * Z)).*1).
  generalize ([] : list (string * Z)).
  induction words as [|x words IH]; intros acc Hacc; cbn [foldl]; [done|].
  apply IH. destruct (3 <? PyOps.str_len x); [by apply dict_add_NoDup | done].
Qed.

(** X7. The frequency table of the fallback of [extract_keywords] holds
    each word of more than three characters once, with the number of
    times it occurs in the text, and holds nothing else. *)
Theorem frequency_table_counts_long_words (words : list string) (w : string) (c : Z) :
  (w, c) ∈ count_long_words words ↔
    3 < PyOps.str_len w ∧ w ∈ words ∧ c = occurrences w words.
Proof.
  rewrite (elem_of_list_to_map (M := gmap string) (count_long_words words) w c)
    by apply count_long_words_NoDup.
  unfold count_long_words.
  rewrite (count_long_words_from [] words w). cbn [list_to_map foldr].
  rewrite lookup_empty. cbn [default from_option id]. unfold occurrences.
  assert (0 < occurrences w words ↔ w ∈ words) as Hocc.
  { unfold occurrences. split.
    - intros Hlen. destruct (filter (λ x, x = w) words) as [|x f] eqn:Hf;
        [simpl in Hlen; lia|].
      assert (x ∈ filter (λ x, x = w) words) as Hx by (rewrite Hf; left).
      by apply list_elem_of_filter in Hx as [-> ?].
    - intros Hw.
      assert (w ∈ filter (λ x, x = w) words) as Hx by (by apply list_elem_of_filter).
      destruct (filter (λ x, x = w) words); [by apply elem_of_nil in Hx | simpl; lia]. }
  unfold occurrences in *. destruct (3 <? PyOps.str_len w) eqn:Hlong; simpl.
  - apply Z.ltb_lt in Hlong. destruct (0 <? _) eqn:Hpos.
    + apply Z.ltb_lt in Hpos. split.
      * intros [= <-]. split_and!; [exact Hlong | apply Hocc; exact Hpos | lia].
      * intros (_ & _ & ->). reflexivity.
    + apply Z.ltb_ge in Hpos. split; [done|]. intros (_ & Hw & _).
      apply Hocc in Hw. lia.
  - apply Z.ltb_ge in Hlong. split; [done | lia].
Qed.

Lemma insert_by_count_perm x l : PyOps.insert_by_count x l ≡ₚ x :: l.
Proof.
  induction l as [|y l IH]; simpl; [done|].
  destruct (y.2 <=? x.2); [done|]. by rewrite IH, Permutation_swap.
Qed.

Lemma insert_by_count_sorted x l :
  StronglySorted (λ a b, b.2 ≤ a.2) l →
  StronglySorted (λ a b, b.2 ≤ a.2) (PyOps.insert_by_count x l).
Proof.
  induction 1 as [|y l Hl IH Hy]; simpl.
  - repeat constructor.
  - destruct (y.2 <=? x.2) eqn:Hle.
    + apply Z.leb_le in Hle. constructor; [by constructor|].
      constructor; [done|]. eapply Forall_impl; [exact Hy|]. simpl. lia.
    + apply Z.leb_gt in Hle. constructor; [done|].
      rewrite insert_by_count_perm. constructor; [lia | done].
Qed.

Lemma insert_by_count_stable x l c :
  filter (λ a, a.2 = c) (PyOps.insert_by_count x l) = filter (λ a, a.2 = c) (x :: l).
Proof.
  induction l as [|y l IH]; simpl; [done|].
  destruct (y.2 <=? x.2) eqn:Hle; [done|]. apply Z.leb_gt in Hle.
  rewrite !filter_cons in *. rewrite IH.
  destruct (decide (y.2 = c)), (decide (x.2 = c)); try done. lia.
Qed.

(** X8. The ranking [sorted(items, key=lambda x: -x[1])] is a
    rearrangement of the items in which counts never increase, and items
    with equal counts keep the order they had. *)
Theorem ranking_is_a_stable_sort (items : list (string * Z)) :
  PyOps.sorted_by_count items ≡ₚ items
  ∧ StronglySorted (λ a b, b.2 ≤ a.2) (PyOps.sorted_by_count items)
  ∧ ∀ c, filter (λ a, a.2 = c) (PyOps.sorted_by_count items)
         = filter (λ a, a.2 = c) items.
Proof.
  unfold PyOps.sorted_by_count. induction items as [|x items (IHp & IHs & IHf)]; simpl.
  - repeat split; constructor.
  - split; [by rewrite insert_by_count_perm, IHp|].
    split; [by apply insert_by_count_sorted|].
    intros c. rewrite insert_by_count_stable, !filter_cons, IHf. done.
Qed.

End keyword_facts.

(* ===================================================================== *)
(** ** nlp_runner.py: the commands that call a library *)
(* ===================================================================== *)

Section command_facts.
Context {L : StrLower} {R : StrRuntime} {O : SetOrder} {E : SentenceTransformers}
        {Sp : SpacyLib} {D : LangdetectLib}.

Lemma mapM_keyword_dict (denominator : Z) (l : list (string * Z)) :
  denominator ≠ 0 →
  mapM (keyword_dict denominator) l
  = Ok ((λ kv, PDict [ (PStr "keyword", PStr kv.1);
                       (PStr "score",
                        PFloat (PrimFloat.div (PyOps.float_of_Z kv.2)
                                              (PyOps.float_of_Z denominator)));
                       (PStr "frequency", PInt kv.2) ]) <$> l).
Proof.
  intros Hd. induction l as [|kv l IH]; [done|].
  change (mapM (keyword_dict denominator) (kv :: l))
    with (y ← keyword_dict denominator kv;
          k ← mapM (keyword_dict denominator) l; mret (y :: k)).
  rewrite IH. unfold keyword_dict, PyOps.int_truediv.
  apply Z.eqb_neq in Hd. by rewrite Hd.
Qed.

Lemma count_long_words_nil : count_long_words [] = [].
Proof. reflexivity. Qed.

(** X9. When spaCy cannot be imported, [extract_keywords] on a text that
    is a string and a [topK] that is a non-negative integer never
    raises, not even on a text without words, where the score's
    denominator is zero: it returns, under "keywords", the first [topK]
    entries of the ranked frequency table, each with its word and its
    count, and "method" is "frequency". *)
Theorem keywords_fallback_never_raises (args : gmap string pyval) (s msg : string) (n : Z) :
  spacy_import = Raise (ImportError msg) →
  default (PStr "") (args !! "text") = PStr s →
  default (PInt 10) (args !! "topK") = PInt n →
  0 ≤ n →
  ∃ kws,
    extract_keywords args None =
      ([EvImportSpacy],
       Ok (None, PDict [ (PStr "keywords", PList kws); (PStr "method", PStr "frequency") ]))
    ∧ (length kws ≤ Z.to_nat n)%nat
    ∧ Forall2 (λ kw kv, field "keyword" kw = Some (PStr kv.1) ∧
                        field "frequency" kw = Some (PInt kv.2))
        kws
        (take (Z.to_nat n)
           (PyOps.sorted_by_count (count_long_words (split_ws (lower s))))).
Proof.
  intros Himport Htext Htop Hn.
  unfold extract_keywords, get_spacy, NlpM.call, NlpM.pure.
  rewrite Himport, Htext, Htop. cbn [NlpM.try_except mbind Nlp_bind mret Nlp_ret app].
  cbn [PyOps.str_method PyOps.slice_to].
  apply Z.ltb_ge in Hn. rewrite Hn.
  set (words := split_ws (lower s)).
  set (top := take (Z.to_nat n) (PyOps.sorted_by_count (count_long_words words))).
  destruct words as [|w words'] eqn:Hwords.
  - exists []. subst top. rewrite count_long_words_nil. cbn.
    rewrite take_nil. cbn. split; [done|]. split; [lia | constructor].
  - rewrite mapM_keyword_dict by (simpl; lia). cbn.
    eexists. split; [reflexivity|]. split.
    + rewrite length_fmap. subst top. rewrite length_take. lia.
    + apply Forall2_fmap_l, Forall_Forall2_diag, Forall_true. by intros kv.
Qed.


Lemma contains_str_list (tys : list string) (lab : string) :
  PyOps.contains_str (PList (PStr <$> tys)) lab = Ok (bool_decide (lab ∈ tys)).
Proof.
  cbn [PyOps.contains_str]. f_equal. induction tys as [|t tys IH].
  - by rewrite bool_decide_eq_false_2 by apply not_elem_of_nil.
  - rewrite fmap_cons. cbn [existsb]. rewrite IH.
    destruct (String.eqb_spec t lab) as [->|Hne]; cbn [orb].
    + by rewrite bool_decide_eq_true_2 by left.
    + apply bool_decide_ext. rewrite elem_of_cons.
      split; [by right | intros [?|?]; [congruence | done]].
Qed.

Lemma select_entities_by_types (tys : list string) (es : list entity) :
  select_entities (PList (PStr <$> tys)) es
  = Ok (if bool_decide (tys = []) then es else filter (λ ent, label_ ent ∈ tys) es).
Proof.
  destruct tys as [|ty tys].
  - induction es as [|ent es IH]; [done|]. cbn. cbn in IH. by rewrite IH.
  - rewrite bool_decide_eq_false_2 by done.
    induction es as [|ent es IH]; [done|].
    cbn [select_entities]. rewrite IH, contains_str_list.
    assert (PyVal.truthy (PList (PStr <$> ty :: tys)) = true) as -> by done.
    cbn [mbind outcome_bind]. rewrite filter_cons.
    by case_bool_decide; case_decide.
Qed.

(** X11. With a loaded pipeline, [extract_entities] lists the entities of
    the document in their order: all of them when "types" is missing or
    an empty list, and otherwise those whose type is one of the given
    types, and no other; "count" is the number listed and "types_found"
    holds the types of the entities listed, each once, in an order left
    to the runtime. *)
Theorem entities_are_selected_by_type (args : gmap string pyval) pipeline d
    (tys : list string) :
  nlp_call pipeline (default (PStr "") (args !! "text")) = Ok d →
  (args !! "types" = None ∧ tys = []) ∨ args !! "types" = Some (PList (PStr <$> tys)) →
  ∃ kept found,
    kept = (if bool_decide (tys = []) then ents d
            else filter (λ ent, label_ ent ∈ tys) (ents d)) ∧
    extract_entities args (Some pipeline) =
      ([EvNlp (default (PStr "") (args !! "text"))],
       Ok (Some pipeline,
           PDict [ (PStr "entities", PList (entity_dict <$> kept));
                   (PStr "count", PInt (Z.of_nat (length kept)));
                   (PStr "types_found", PList (PStr <$> found));
                   (PStr "method", PStr "spacy") ])) ∧
    NoDup found ∧
    ∀ ty, ty ∈ found ↔ ∃ ent, ent ∈ kept ∧ label_ ent = ty.
Proof.
  intros Hdoc Htypes.
  pose (kept := if bool_decide (tys = []) then ents d
                else filter (λ ent, label_ ent ∈ tys) (ents d)).
  exists kept, (list_of_set (label_ <$> kept)). split; [reflexivity|]. split.
  - subst kept. unfold extract_entities, get_spacy, NlpM.call, NlpM.pure.
    cbn [mbind Nlp_bind mret Nlp_ret app]. rewrite Hdoc.
    destruct Htypes as [[-> ->] | ->]; cbn [default from_option id].
    + assert (select_entities PNone (ents d) = Ok (ents d)) as ->.
      { induction (ents d) as [|ent es IH]; [done|]. cbn. cbn in IH. by rewrite IH. }
      reflexivity.
    + rewrite select_entities_by_types. reflexivity.
  - split.
    + rewrite list_of_set_perm. apply NoDup_remove_dups.
    + intros ty. rewrite list_of_set_perm, elem_of_remove_dups, list_elem_of_fmap.
      split; intros (ent & H1 & H2); exists ent; split; congruence.
Qed.

(** X12. After a call of [embed_text] that starts with no model loaded
    and returns: either the model is loaded, the result names it, and
    the next call does nothing but encode; or no model is loaded, the
    result is marked "unavailable", and the next call starts by trying
    the import again. *)
Theorem embed_text_loads_once_or_retries (args args' : gmap string pyval) tr g r :
  embed_text args None = (tr, Ok (g, r)) →
  (g = Some "all-MiniLM-L6-v2" ∧
   field "model" r = Some (PStr "all-MiniLM-L6-v2") ∧
   (embed_text args' g).1 = [EvEncode (texts_of_args args')])
  ∨ (g = None ∧
     field "model" r = Some (PStr "unavailable") ∧
     ∃ tr', (embed_text args' g).1 = EvImportSentenceTransformers :: tr').
Proof.
  unfold embed_text, get_sentence_model, call. intros Hrun.
  destruct st_import as [[]|e] eqn:Himport.
  - destruct (st_new "all-MiniLM-L6-v2") as [[]|e] eqn:Hnew.
    + left. cbn in Hrun.
      destruct (encode (texts_of_args args)) as [arr|e]; cbn in Hrun; [|done].
      injection Hrun as <- <- <-. split_and!; [done..|].
      cbn. by destruct (encode (texts_of_args args')).
    + right. destruct e; cbn in Hrun; try done.
      destruct (PyVal.iter (texts_of_args args)); cbn in Hrun; [|done].
      injection Hrun as <- <- <-. split_and!; [done..|].
      cbn. destruct (PyVal.iter (texts_of_args args')); by eexists.
  - right. destruct e; cbn in Hrun; try done.
    destruct (PyVal.iter (texts_of_args args)); cbn in Hrun; [|done].
    injection Hrun as <- <- <-. split_and!; [done..|].
    cbn. destruct (PyVal.iter (texts_of_args args')); by eexists.
Qed.

(** X13. When spaCy cannot be imported, [split_sentences] on a text that
    is a string never raises. It lists, in order, the pieces of the
    split that are not blank: for each its stripped text, "start" 0 and
    as "end" the length of the piece before stripping. "count" is the
    number of all the pieces, blank ones included, so it can exceed the
    number of sentences listed. *)
Theorem split_sentences_fallback_counts_all_pieces (args : gmap string pyval)
    (s msg : string) :
  spacy_import = Raise (ImportError msg) →
  default (PStr "") (args !! "text") = PStr s →
  ∃ listed,
    split_sentences args None =
      ([EvImportSpacy],
       Ok (None, PDict [ (PStr "sentences", PList listed);
                         (PStr "count", PInt (Z.of_nat (length (re_split_sentences s))));
                         (PStr "method", PStr "regex") ]))
    ∧ (length listed ≤ length (re_split_sentences s))%nat
    ∧ Forall (λ d, field "start" d = Some (PInt 0) ∧
                   ∃ t, field "text" d = Some (PStr t) ∧ t ≠ EmptyString) listed
    ∧ Forall2 (λ d piece, field "text" d = Some (PStr (strip piece)) ∧
                          field "start" d = Some (PInt 0) ∧
                          field "end" d = Some (PInt (PyOps.str_len piece)))
        listed
        (filter (λ piece, strip piece ≠ EmptyString) (re_split_sentences s)).
Proof.
  intros Himport Htext. unfold split_sentences, get_spacy, NlpM.call, NlpM.pure.
  rewrite Himport, Htext. cbn [NlpM.try_except mbind Nlp_bind mret Nlp_ret app].
  eexists. split; [reflexivity|]. split; [|split].
  - rewrite length_fmap. apply length_filter.
  - apply Forall_fmap, Forall_forall. intros piece Hpiece.
    apply list_elem_of_filter in Hpiece as [Hpiece _].
    split; [done|]. by exists (strip piece).
  - apply Forall2_fmap_l, Forall_Forall2_diag, Forall_true. by intros piece.
Qed.

End command_facts.

(* ===================================================================== *)
(** ** nlp_runner.py: outline and classification *)
(* ===================================================================== *)

Section outline_facts.
Context {L : StrLower} {R : StrRuntime}.

Lemma outline_from_entries (d i : Z) (lines : list string) :
  ∃ entries : list (Z * string * Z),
    outline_from (PInt d) i lines = Ok (outline_entry <$> entries) ∧
    Forall (λ e, 1 ≤ e.1.1 ≤ d ∧ i + 1 ≤ e.2 ≤ i + Z.of_nat (length lines) ∧
                 ∃ line, lines !! Z.to_nat (e.2 - i - 1) = Some line ∧
                         heading_of (strip line) = e.1) entries ∧
    StronglySorted (λ a b, a.2 < b.2) entries.
Proof.
  revert i. induction lines as [|line lines IH]; intros i.
  - exists []. repeat split; constructor.
  - destruct (IH (i + 1)) as (entries & Hrun & Hall & Hsorted).
    assert (Forall (λ e, 1 ≤ e.1.1 ≤ d ∧
                         i + 1 < e.2 ≤ i + Z.of_nat (length (line :: lines)) ∧
                         ∃ l, (line :: lines) !! Z.to_nat (e.2 - i - 1) = Some l ∧
                              heading_of (strip l) = e.1) entries) as Hall'.
    { eapply Forall_impl; [exact Hall|]. intros e (Hlevel & Hline & l & Hl & Hh).
      split; [done|]. split; [simpl; lia|]. exists l. split; [|done].
      replace (Z.to_nat (e.2 - i - 1)) with (S (Z.to_nat (e.2 - (i + 1) - 1))) by lia.
      done. }
    assert (Forall (λ e, 1 ≤ e.1.1 ≤ d ∧
                         i + 1 ≤ e.2 ≤ i + Z.of_nat (length (line :: lines)) ∧
                         ∃ l, (line :: lines) !! Z.to_nat (e.2 - i - 1) = Some l ∧
                              heading_of (strip l) = e.1) entries) as Hweak.
    { eapply Forall_impl; [exact Hall'|]. intros e (? & ? & ?). split_and!; [lia..|done]. }
    cbn [outline_from]. destruct (String.eqb (strip line) EmptyString).
    { exists entries. by split_and!. }
    destruct (heading_of (strip line)) as [level title] eqn:Hheading.
    rewrite Hrun. destruct (0 <? level) eqn:Hpos; cbn [mbind outcome_bind PyOps.int_le].
    + destruct (level <=? d) eqn:Hle; [|exists entries; by split_and!].
      apply Z.ltb_lt in Hpos. apply Z.leb_le in Hle.
      exists ((level, title, i + 1) :: entries). split; [done|]. split.
      * constructor; [|done]. cbn. split; [lia|]. split; [lia|].
        exists line. replace (Z.to_nat (i + 1 - i - 1)) with 0%nat by lia. done.
      * constructor; [done|]. eapply Forall_impl; [exact Hall'|]. cbn. lia.
    + exists entries. by split_and!.
Qed.

(** X14. For a text that is a string and an integer "maxDepth" (3 when
    missing), [generate_outline] never raises. Every entry of the
    outline has a level between 1 and the depth and describes the line
    whose number it carries: level and title are those the heading rules
    give that line once stripped. Line numbers run from 1, strictly
    increase along the outline, so a line has at most one entry, and
    "sections" is the number of entries. *)
Theorem outline_entries_are_headings_in_order (args : gmap string pyval) (s : string) (d : Z) :
  default (PStr "") (args !! "text") = PStr s →
  default (PInt 3) (args !! "maxDepth") = PInt d →
  ∃ entries : list (Z * string * Z),
    generate_outline args =
      Ok (PDict [ (PStr "outline", PList (outline_entry <$> entries));
                  (PStr "depth", PInt d);
                  (PStr "sections", PInt (Z.of_nat (length entries))) ]) ∧
    Forall (λ e, 1 ≤ e.1.1 ≤ d ∧
                 ∃ line, PyOps.split_on "010"%char s !! Z.to_nat (e.2 - 1) = Some line ∧
                         1 ≤ e.2 ∧ heading_of (strip line) = e.1) entries ∧
    StronglySorted (λ a b, a.2 < b.2) entries.
Proof.
  intros Htext Hdepth. unfold generate_outline. rewrite Htext, Hdepth.
  cbn [PyOps.str_method mbind outcome_bind].
  destruct (outline_from_entries d 0 (PyOps.split_on "010"%char s))
    as (entries & -> & Hall & Hsorted).
  exists entries. cbn [mbind outcome_bind]. rewrite length_fmap.
  split; [done|]. split; [|done].
  eapply Forall_impl; [exact Hall|]. intros e (? & ? & line & Hline & ?).
  split; [done|]. exists line. rewrite Z.sub_0_r in Hline. split_and!; [done|lia|done].
Qed.

End outline_facts.

Section classify_facts.
Context {L : StrLower}.

Lemma float_ltb_irrefl (x : float) : PrimFloat.ltb x x = false.
Proof.
  rewrite FloatAxioms.ltb_spec. unfold SpecFloat.SFltb.
  destruct (FloatOps.Prim2SF x) as [[]|[]| |[] m e]; cbn; try reflexivity;
    rewrite Z.compare_refl, ?Pos.compare_cont_refl; cbn;
    by rewrite ?Pos.compare_refl.
Qed.

Lemma max_by_value_elem best rest : PyOps.max_by_value best rest ∈ best :: rest.
Proof.
  revert best. induction rest as [|x rest IH]; intros best; cbn; [by left|].
  destruct (PrimFloat.ltb best.2 x.2).
  - right. apply IH.
  - specialize (IH best). apply elem_of_cons in IH as [->|?]; [by left | by do 2 right].
Qed.

Lemma max_by_value_constant (x : float) best rest :
  best.2 = x → Forall (λ kv, kv.2 = x) rest → PyOps.max_by_value best rest = best.
Proof.
  intros Hbest Hrest. induction Hrest as [|kv rest Hkv _ IH]; cbn; [done|].
  by rewrite Hbest, Hkv, float_ltb_irrefl.
Qed.

Lemma dict_set_keys {V} k (v : V) (d : list (string * V)) :
  (PyOps.dict_set k v d).*1 = if bool_decide (k ∈ d.*1) then d.*1 else d.*1 ++ [k].
Proof.
  induction d as [|[k' v'] d IH].
  - by rewrite bool_decide_eq_false_2 by apply not_elem_of_nil.
  - cbn [PyOps.dict_set]. destruct (String.eqb_spec k' k) as [->|Hne].
    + by rewrite bool_decide_eq_true_2 by left.
    + rewrite !fmap_cons, IH. cbn [fst]. destruct (bool_decide (k ∈ d.*1)) eqn:Hin.
      * apply bool_decide_eq_true in Hin. by rewrite bool_decide_eq_true_2 by (by right).
      * apply bool_decide_eq_false in Hin.
        rewrite bool_decide_eq_false_2; [done|].
        rewrite elem_of_cons. intros [?|?]; congruence.
Qed.

Lemma dict_set_values {V} (P : string → V → Prop) k (v : V) (d : list (string * V)) :
  P k v → Forall (λ kv, P kv.1 kv.2) d → Forall (λ kv, P kv.1 kv.2) (PyOps.dict_set k v d).
Proof.
  intros Hk. induction 1 as [|[k' v'] d Hkv Hd IH]; cbn; [by repeat constructor|].
  destruct (String.eqb_spec k' k) as [->|Hne]; by constructor.
Qed.

(** The keys of a dict filled key by key: the first key stays first, and
    every key is one of those set. *)
Lemma foldl_dict_set {V} (P : string → V → Prop) (f : string → V) (cats : list string)
    (acc : list (string * V)) :
  (∀ c, P c (f c)) → Forall (λ kv, P kv.1 kv.2) acc →
  let d := foldl (λ d cat, PyOps.dict_set cat (f cat) d) acc cats in
  Forall (λ kv, P kv.1 kv.2) d ∧ acc.*1 `prefix_of` d.*1 ∧
  (∀ k, k ∈ d.*1 → k ∈ acc.*1 ∨ k ∈ cats) ∧ (∀ k, k ∈ cats → k ∈ d.*1).
Proof.
  intros HP. revert acc. induction cats as [|c cats IH]; intros acc Hacc; cbn.
  - split_and!; [done|done|by left|]. intros k Hk. by apply elem_of_nil in Hk.
  - destruct (IH (PyOps.dict_set c (f c) acc)) as (Hvals & Hpre & Hkeys & Hcats).
    { by apply dict_set_values. }
    assert (acc.*1 `prefix_of` (PyOps.dict_set c (f c) acc).*1) as Hstep.
    { rewrite dict_set_keys. case_bool_decide; [done|]. by apply prefix_app_r. }
    split_and!; [done|by etrans| |].
    + intros k Hk. destruct (Hkeys k Hk) as [Hin|Hin]; [|by right; right].
      rewrite dict_set_keys in Hin. case_bool_decide; [by left|].
      apply elem_of_app in Hin as [?|Hin]; [by left|].
      apply list_elem_of_singleton in Hin as ->. right. by left.
    + intros k Hk. apply elem_of_cons in Hk as [->|Hk]; [|by apply Hcats].
      destruct Hpre as [more Hmore]. rewrite Hmore. apply elem_of_app. left.
      rewrite dict_set_keys. case_bool_decide; [done|]. apply elem_of_app. right. by left.
Qed.

Lemma mapM_str_method name (l : list string) :
  mapM (PyOps.str_method name) (PStr <$> l) = Ok l.
Proof.
  induction l as [|x l IH]; [done|].
  change (mapM (PyOps.str_method name) (PStr <$> x :: l))
    with (y ← PyOps.str_method name (PStr x);
          k ← mapM (PyOps.str_method name) (PStr <$> l); mret (y :: k)).
  by rewrite IH.
Qed.

Lemma mapM_probabilities (total : Z) (scores : list (string * Z)) :
  total ≠ 0 →
  mapM (λ kv, p ← PyOps.int_truediv kv.2 total; Ok (kv.1, p)) scores
  = Ok ((λ kv, (kv.1, PrimFloat.div (PyOps.float_of_Z kv.2) (PyOps.float_of_Z total)))
        <$> scores).
Proof.
  intros Ht. apply Z.eqb_neq in Ht. induction scores as [|kv l IH]; [done|].
  change (mapM ?f (kv :: l)) with (y ← f kv; k ← mapM f l; mret (y :: k)).
  rewrite IH. unfold PyOps.int_truediv. by rewrite Ht.
Qed.

(** X15. [classify_text] on a text that is a string and a non-empty list
    of categories that are strings never raises, and the category it
    returns is one of those given. When no category occurs in the text,
    it returns the first category, with confidence one over the number
    of categories. *)
Theorem classify_text_picks_a_given_category (args : gmap string pyval)
    (s c : string) (cats : list string) :
  default (PStr "") (args !! "text") = PStr s →
  default (PList [PStr "positive"; PStr "negative"; PStr "neutral"]) (args !! "categories")
    = PList (PStr <$> c :: cats) →
  ∃ r cat conf,
    classify_text args = Ok r ∧
    field "category" r = Some (PStr cat) ∧
    field "confidence" r = Some (PFloat conf) ∧
    field "method" r = Some (PStr "keyword") ∧
    cat ∈ c :: cats ∧
    ((∀ k, k ∈ c :: cats → PyOps.count (lower k) (lower s) = 0) →
     cat = c ∧
     conf = PrimFloat.div 1.0%float (PyOps.float_of_Z (Z.of_nat (length (c :: cats))))).
Proof.
  intros Htext Hcats. unfold classify_text. rewrite Htext, Hcats.
  cbn [PyOps.str_method PyVal.iter mbind outcome_bind].
  rewrite mapM_str_method. cbn [mbind outcome_bind].
  set (count_in := λ cat, PyOps.count (lower cat) (lower s)).
  set (scores := foldl (λ (scores : list (string * Z)) cat, _) [] (c :: cats)).
  pose proof (foldl_dict_set (λ k v, v = count_in k) count_in (c :: cats) []
                ltac:(done) ltac:(constructor)) as Hfacts.
  cbn zeta in Hfacts. change (foldl _ _ _) with scores in Hfacts.
  destruct Hfacts as (Hvals & _ & Hkeys & Hall). clearbody scores.
  set (total := foldr Z.add 0 scores.*2).
  set (x := PrimFloat.div 1.0%float (PyOps.float_of_Z (Z.of_nat (length (c :: cats))))).
  destruct (total =? 0) eqn:Htotal.
  - cbn [mbind outcome_bind foldl PyOps.dict_set].
    destruct (foldl_dict_set (λ _ v, v = x) (λ _, x) cats [(c, x)])
      as (Hxvals & [more Hmore] & _); [done | by repeat constructor |].
    cbn zeta in Hxvals, Hmore.
    destruct (foldl (λ d cat, PyOps.dict_set cat x d) [(c, x)] cats)
      as [|[k v] probs] eqn:Hprobs; [done|].
    cbn in Hmore. injection Hmore as -> _.
    apply Forall_cons in Hxvals as [Hv Hrest]. cbn in Hv. subst v.
    rewrite (max_by_value_constant x) by done.
    eexists _, c, x. split; [reflexivity|]. split_and!; try done. by left.
  - apply Z.eqb_neq in Htotal. rewrite mapM_probabilities by done.
    cbn [mbind outcome_bind].
    destruct scores as [|[k v] rest].
    { exfalso. specialize (Hall c ltac:(by left)). by apply elem_of_nil in Hall. }
    rewrite fmap_cons. cbn [fst snd].
    set (first := (k, PrimFloat.div (PyOps.float_of_Z v) (PyOps.float_of_Z total))).
    set (others := (λ kv : string * Z,
                      (kv.1, PrimFloat.div (PyOps.float_of_Z kv.2) (PyOps.float_of_Z total)))
                   <$> rest).
    pose proof (max_by_value_elem first others) as Hin.
    eexists _, (PyOps.max_by_value first others).1, (PyOps.max_by_value first others).2.
    split; [reflexivity|]. split_and!; try done.
    + assert ((PyOps.max_by_value first others).1 ∈ (k :: rest.*1)) as Hkey.
      { apply elem_of_cons in Hin as [->|Hin]; [by left|]. right.
        subst others. apply list_elem_of_fmap in Hin as (kv & -> & Hkv).
        cbn. by apply list_elem_of_fmap_2. }
      destruct (Hkeys _ Hkey) as [Hnil|?]; [by apply elem_of_nil in Hnil | done].
    + intros Hnone. exfalso. apply Htotal. subst total.
      assert (Forall (λ kv, kv.2 = 0) ((k, v) :: rest)) as Hzero.
      { apply Forall_forall. intros kv Hkv.
        rewrite Forall_forall in Hvals. rewrite (Hvals kv Hkv). apply Hnone.
        destruct (Hkeys kv.1) as [Hnil|?]; [by apply list_elem_of_fmap_2
                                          | by apply elem_of_nil in Hnil | done]. }
      clear -Hzero. induction Hzero as [|kv l Hkv _ IH]; cbn; [done|]. rewrite Hkv. exact IH.
Qed.

(** X16. With an empty collection of categories (an empty list, string
    or dict), [classify_text] on a text that is a string raises
    [ValueError]: there is no category to take the maximum over. *)
Theorem classify_text_needs_a_category (args : gmap string pyval) (s : string)
    (categories : pyval) :
  default (PStr "") (args !! "text") = PStr s →
  default (PList [PStr "positive"; PStr "negative"; PStr "neutral"]) (args !! "categories")
    = categories →
  categories = PList [] ∨ categories = PStr "" ∨ categories = PDict [] →
  ∃ msg, classify_text args = Raise (Exception "ValueError" msg).
Proof.
  intros Htext Hcats Hempty. unfold classify_text. rewrite Htext, Hcats.
  by destruct Hempty as [-> | [-> | ->]]; eexists.
Qed.

End classify_facts.

(* ===================================================================== *)
(** ** nlp_runner.py: [main] *)
(* ===================================================================== *)

Section nlp_main_facts.
Context {L : StrLower} {R : StrRuntime} {O : SetOrder} {E : SentenceTransformers}
        {Sp : SpacyLib} {D : LangdetectLib} {J : JsonLib} {I : Stdin}.

Lemma quiet_ret {A} (a : A) : quiet (mret a).
Proof. done. Qed.

Lemma quiet_pure {A} (r : outcome A) : quiet (NlpM.pure r).
Proof. done. Qed.

Lemma quiet_call {A} ev (r : outcome A) :
  match ev with EvPy (EvPrint _) => False | _ => True end → quiet (NlpM.call ev r).
Proof. unfold quiet. by destruct ev as [[]| | | | | | |]. Qed.

Lemma stdout_app tr1 tr2 : NlpM.stdout (tr1 ++ tr2) = NlpM.stdout tr1 ++ NlpM.stdout tr2.
Proof. apply omap_app. Qed.

Lemma quiet_bind {A B} (m : Nlp A) (k : A → Nlp B) :
  quiet m → (∀ a, quiet (k a)) → quiet (m ≫= k).
Proof.
  unfold quiet. destruct m as [tr [a|e]]; [|done].
  intros Hm Hk. specialize (Hk a).
  change ((tr, Ok a) ≫= k) with (let '(tr', r) := k a in (tr ++ tr', r)).
  destruct (k a) as [tr' r]. cbn [fst] in *. by rewrite stdout_app, Hm, Hk.
Qed.

Lemma quiet_try {A} (m : Nlp A) handler :
  quiet m → (∀ e h, handler e = Some h → quiet h) → quiet (NlpM.try_except m handler).
Proof.
  unfold quiet. destruct m as [tr [a|e]]; [done|].
  intros Hm Hh. cbn [NlpM.try_except]. destruct (handler e) as [[tr' r]|] eqn:He; [|done].
  specialize (Hh e _ He). cbn [fst] in *. by rewrite stdout_app, Hm, Hh.
Qed.

Lemma embed_text_prints_nothing args g : stdout (embed_text args g).1 = [].
Proof.
  unfold embed_text, get_sentence_model, call.
  destruct g; cbn.
  - by destruct (encode (texts_of_args args)).
  - destruct st_import as [[]|[]]; cbn; try done;
      try (by destruct (PyVal.iter (texts_of_args args))).
    destruct (st_new "all-MiniLM-L6-v2") as [[]|[]]; cbn; try done;
      try (by destruct (PyVal.iter (texts_of_args args)));
      by destruct (encode (texts_of_args args)).
Qed.

Lemma quiet_of_py {A} (m : Py A) : stdout m.1 = [] → quiet (NlpM.of_py m).
Proof.
  unfold quiet, NlpM.of_py, NlpM.stdout, stdout. destruct m as [tr r]. cbn.
  induction tr as [|ev tr IH]; [done|]. cbn.
  destruct ev; cbn; try done. all: intros; by apply IH.
Qed.

Lemma get_spacy_quiet g : quiet (get_spacy g).
Proof.
  unfold get_spacy. destruct g; [apply quiet_ret|].
  apply quiet_try.
  - apply quiet_bind; [by apply quiet_call|]. intros _.
    apply quiet_bind; [|intros; apply quiet_ret].
    apply quiet_try; [by apply quiet_call|].
    intros e h. destruct (PyOps.is_OSError e); [|done]. intros [= <-]. by apply quiet_call.
  - intros e h. destruct e; try done. intros [= <-]. apply quiet_ret.
Qed.

Lemma get_langdetect_quiet g : quiet (get_langdetect g).
Proof.
  unfold get_langdetect. destruct g; [apply quiet_ret|].
  apply quiet_try.
  - apply quiet_bind; [by apply quiet_call | intros; apply quiet_ret].
  - intros e h. destruct e; try done. intros [= <-]. apply quiet_ret.
Qed.

(** No command prints. *)
Lemma commands_are_quiet name handler args g :
  (name, handler) ∈ COMMANDS → quiet (handler args g).
Proof.
  unfold COMMANDS. rewrite !elem_of_cons, elem_of_nil.
  intros [H|[H|[H|[H|[H|[H|[H|[H|[]]]]]]]]]; injection H as _ ->.
  - apply quiet_bind; [|intros [? ?]; apply quiet_ret].
    unfold detect_language. apply quiet_bind; [apply get_langdetect_quiet|].
    intros [|]; [|apply quiet_ret].
    apply quiet_bind; [|intros; apply quiet_ret].
    apply quiet_try.
    + apply quiet_bind; [by apply quiet_call | intros; apply quiet_ret].
    + intros e h. destruct (PyOps.is_Exception e); [|done]. intros [= <-]. apply quiet_ret.
  - apply quiet_bind; [|intros [? ?]; apply quiet_ret].
    unfold extract_entities. apply quiet_bind; [apply get_spacy_quiet|].
    intros [|]; [|apply quiet_ret].
    apply quiet_bind; [by apply quiet_call|]. intros.
    apply quiet_bind; [apply quiet_pure | intros; apply quiet_ret].
  - apply quiet_bind; [|intros [? ?]; apply quiet_ret].
    unfold extract_keywords. apply quiet_bind; [apply get_spacy_quiet|].
    intros [|].
    + apply quiet_bind; [by apply quiet_call|]. intros.
      apply quiet_bind; [apply quiet_pure|]. intros.
      apply quiet_bind; [apply quiet_pure|]. intros.
      apply quiet_bind; [apply quiet_pure | intros; apply quiet_ret].
    + apply quiet_bind; [apply quiet_pure|]. intros.
      apply quiet_bind; [apply quiet_pure|]. intros.
      apply quiet_bind; [apply quiet_pure | intros; apply quiet_ret].
  - unfold quiet. by destruct (analyze_sentiment args).
  - apply quiet_bind; [|intros [? ?]; apply quiet_ret].
    unfold split_sentences. apply quiet_bind; [apply get_spacy_quiet|].
    intros [|].
    + apply quiet_bind; [by apply quiet_call|]. intros.
      apply quiet_bind; [apply quiet_pure | intros; apply quiet_ret].
    + apply quiet_bind; [apply quiet_pure | intros; apply quiet_ret].
  - unfold quiet. by destruct (generate_outline args).
  - pose proof (quiet_of_py _ (embed_text_prints_nothing args (g_sentence_model g))) as Hq.
    unfold quiet, NlpM.of_py in *.
    destruct (embed_text args (g_sentence_model g)) as [tr [[m r]|e]]; cbn [fst snd] in *;
      [|done].
    cbn. by rewrite stdout_app, Hq.
  - unfold quiet. by destruct (classify_text args).
Qed.

Lemma find_command (command : string) :
  match snd <$> find (λ kv, String.eqb kv.1 command) COMMANDS with
  | Some handler => (command, handler) ∈ COMMANDS
  | None => command ∉ COMMANDS.*1
  end.
Proof.
  generalize COMMANDS. intros l. induction l as [|[k h] l IH]; cbn.
  - apply not_elem_of_nil.
  - destruct (String.eqb_spec k command) as [->|Hne]; cbn; [by left|].
    destruct (snd <$> find _ l); [by right|].
    rewrite not_elem_of_cons. by split.
Qed.

(** The names of the commands, as listed under "available". *)
Lemma available_commands :
  available = PList (PStr <$> [ "detect_language"; "extract_entities"; "extract_keywords";
                                "analyze_sentiment"; "split_sentences"; "generate_outline";
                                "embed_text"; "classify_text" ]).
Proof. reflexivity. Qed.

(** X17. Called without a command, or with a command that is not one of
    the eight, [main] of nlp_runner.py prints one object with an "error"
    field and the list of the eight commands under "available", and
    exits with status 1; it reads no input and calls no library. *)
Theorem nlp_main_rejects_unknown_command (argv : list string) :
  (length argv < 2)%nat
  ∨ (∃ command, argv !! 1%nat = Some command ∧
       command ∉ [ "detect_language"; "extract_entities"; "extract_keywords";
                   "analyze_sentiment"; "split_sentences"; "generate_outline";
                   "embed_text"; "classify_text" ]) →
  ∃ msg,
    nlp_main argv =
      ([EvPy (EvPrint
          (PDict [ (PStr "error", PStr msg);
                   (PStr "available",
                    PList (PStr <$> [ "detect_language"; "extract_entities";
                                      "extract_keywords"; "analyze_sentiment";
                                      "split_sentences"; "generate_outline";
                                      "embed_text"; "classify_text" ])) ]))],
       Raise (SystemExit 1)).
Proof.
  intros [Hlen | (command & Hcommand & Hnot)]; unfold nlp_main.
  - apply Nat.ltb_lt in Hlen. rewrite Hlen. by eexists.
  - assert ((length argv <? 2)%nat = false) as ->.
    { apply Nat.ltb_ge. apply lookup_lt_Some in Hcommand. lia. }
    rewrite Hcommand. cbn [default from_option id].
    pose proof (find_command command) as Hfind.
    destruct (snd <$> find _ COMMANDS) as [handler|]; [|by eexists].
    destruct Hnot. by apply (list_elem_of_fmap_2 fst) in Hfind.
Qed.

(** X18. When the second argument decodes to a value that is not a JSON
    object, no command runs: [main] prints an object with an "error"
    field (the value has no attribute 'get') and the command's name, and
    exits with status 1. *)
Theorem nlp_main_rejects_non_object_arguments (argv : list string) (command arg : string)
    handler (v : pyval) :
  argv !! 1%nat = Some command →
  argv !! 2%nat = Some arg →
  (command, handler) ∈ COMMANDS →
  json_loads arg = Ok v →
  (∀ items, v ≠ PDict items) →
  nlp_main argv =
    ([EvPy (EvJsonLoads arg);
      EvPy (EvPrint
        (PDict [ (PStr "error",
                  PStr ("'" +:+ PyOps.type_name v +:+ "' object has no attribute 'get'"));
                 (PStr "command", PStr command) ]))],
     Raise (SystemExit 1)).
Proof.
  intros Hcommand Harg Hin Hloads Hv. unfold nlp_main.
  assert ((length argv <? 2)%nat = false) as ->.
  { apply Nat.ltb_ge. apply lookup_lt_Some in Hcommand. lia. }
  assert ((2 <? length argv)%nat = true) as Hlen.
  { apply Nat.ltb_lt. apply lookup_lt_Some in Harg. lia. }
  rewrite Hcommand. cbn [default from_option id].
  pose proof (find_command command) as Hfind.
  destruct (snd <$> find _ COMMANDS) as [handler'|];
    [|destruct Hfind; by apply (list_elem_of_fmap_2 fst) in Hin].
  rewrite Hlen, Harg. cbn [default from_option id]. unfold NlpM.call. rewrite Hloads.
  destruct v; try done. by destruct (Hv items).
Qed.

(** X19. A second argument that is not JSON is taken as the text: the
    command runs on the arguments {"text": argument}, and when it
    returns, its result is the one object printed and [main] ends
    normally. *)
Theorem nlp_main_takes_plain_text (argv : list string) (command arg msg : string)
    (handler : gmap string pyval → globals → Nlp (globals * pyval)) tr g r :
  argv !! 1%nat = Some command →
  argv !! 2%nat = Some arg →
  snd <$> find (λ kv, String.eqb kv.1 command) COMMANDS = Some handler →
  json_loads arg = Raise (JSONDecodeError msg) →
  handler {[ "text" := PStr arg ]} no_globals = (tr, Ok (g, r)) →
  nlp_main argv = (EvPy (EvJsonLoads arg) :: tr ++ [EvPy (EvPrint r)], Ok ())
  ∧ NlpM.stdout (nlp_main argv).1 = [r].
Proof.
  intros Hcommand Harg Hfind Hloads Hrun.
  assert (nlp_main argv = (EvPy (EvJsonLoads arg) :: tr ++ [EvPy (EvPrint r)], Ok ())) as Hmain.
  { unfold nlp_main.
    assert ((length argv <? 2)%nat = false) as ->.
    { apply Nat.ltb_ge. apply lookup_lt_Some in Hcommand. lia. }
    assert ((2 <? length argv)%nat = true) as ->.
    { apply Nat.ltb_lt. apply lookup_lt_Some in Harg. lia. }
    rewrite Hcommand. change (default "" (Some command)) with command.
    rewrite Hfind, Harg. change (default "" (Some arg)) with arg.
    unfold NlpM.call. rewrite Hloads.
    cbn -[COMMANDS]. rewrite insert_empty, Hrun. reflexivity. }
  split; [done|]. rewrite Hmain. cbn [fst].
  pose proof (find_command command) as Hin. rewrite Hfind in Hin.
  pose proof (commands_are_quiet _ _ {[ "text" := PStr arg ]} no_globals Hin) as Hq.
  unfold quiet in Hq. rewrite Hrun in Hq. cbn [fst] in Hq.
  change (EvPy (EvJsonLoads arg) :: tr ++ [EvPy (EvPrint r)])
    with ([EvPy (EvJsonLoads arg)] ++ tr ++ [EvPy (EvPrint r)]).
  by rewrite !stdout_app, Hq.
Qed.

(** X20. Every run of [main] of nlp_runner.py ends in one of three ways:
    one object printed and a normal end; one object with an "error"
    field printed and exit status 1; or nothing printed and an exception
    that escapes. It never prints more than one object. *)
Theorem nlp_main_prints_one_object (argv : list string) :
  (∃ v, NlpM.stdout (nlp_main argv).1 = [v] ∧ (nlp_main argv).2 = Ok ())
  ∨ (∃ v, NlpM.stdout (nlp_main argv).1 = [v] ∧ has_field "error" v = true ∧
          (nlp_main argv).2 = Raise (SystemExit 1))
  ∨ (∃ e, NlpM.stdout (nlp_main argv).1 = [] ∧ (nlp_main argv).2 = Raise e).
Proof.
  unfold nlp_main. destruct (length argv <? 2)%nat; [right; left; by eexists|].
  generalize (default "" (argv !! 1%nat)). intros command.
  pose proof (find_command command) as Hin.
  destruct (snd <$> find _ COMMANDS) as [handler|]; [|right; left; by eexists].
  assert (∀ tr0 (args : pyval), NlpM.stdout tr0 = [] →
    let run := (args ← ((tr0, Ok args) : Nlp pyval);
                NlpM.try_except
                  (d ← NlpM.pure (args_dict args);
                   '(_, result) ← handler d no_globals;
                   NlpM.print_json result)
                  (λ e, if PyOps.is_Exception e
                        then Some (_ ← NlpM.print_json
                                         (PDict [ (PStr "error", PStr (PyOps.exn_str e));
                                                  (PStr "command", PStr command) ]);
                                   NlpM.sys_exit 1)
                        else None)) in
    (∃ v, NlpM.stdout run.1 = [v] ∧ run.2 = Ok ())
    ∨ (∃ v, NlpM.stdout run.1 = [v] ∧ has_field "error" v = true ∧
            run.2 = Raise (SystemExit 1))
    ∨ (∃ e, NlpM.stdout run.1 = [] ∧ run.2 = Raise e)) as Hrun.
  { intros tr0 args Htr0. cbn zeta.
    cbn -[COMMANDS NlpM.stdout NlpM.try_except].
    destruct (args_dict args) as [d|e] eqn:Hd; cbn -[COMMANDS NlpM.stdout].
    - pose proof (commands_are_quiet _ _ d no_globals Hin) as Hq. unfold quiet in Hq.
      destruct (handler d no_globals) as [tr [[g r]|e]]; cbn [fst] in Hq;
        cbn -[NlpM.stdout].
      + left. eexists. rewrite !stdout_app, Htr0, Hq. by cbn.
      + destruct (PyOps.is_Exception e); cbn -[NlpM.stdout].
        * right; left. eexists. rewrite !stdout_app, Htr0, Hq. by cbn.
        * right; right. eexists. by rewrite !stdout_app, Htr0, Hq.
    - destruct (PyOps.is_Exception e); cbn -[NlpM.stdout].
      + right; left. eexists. rewrite !stdout_app, Htr0. by cbn.
      + right; right. eexists. by rewrite ?stdout_app, Htr0. }
  destruct (2 <? length argv)%nat.
  - generalize (default "" (argv !! 2%nat)). intros arg. unfold NlpM.call.
    destruct (json_loads arg) as [v|e].
    + by apply (Hrun [EvPy (EvJsonLoads arg)] v).
    + destruct e; try (right; right; by eexists).
      by apply (Hrun ([EvPy (EvJsonLoads arg)] ++ []) (PDict [(PStr "text", PStr arg)])).
  - unfold NlpM.call. destruct stdin_read as [input|e].
    + cbn [mbind Nlp_bind]. destruct (json_loads input) as [v|e].
      * by apply (Hrun ([EvStdinRead] ++ [EvPy (EvJsonLoads input)]) v).
      * by apply (Hrun (([EvStdinRead] ++ [EvPy (EvJsonLoads input)]) ++ []) (PDict [])).
    + by apply (Hrun ([EvStdinRead] ++ []) (PDict [])).
Qed.

End nlp_main_facts.

(* ===================================================================== *)
(** ** nlp_runner.py: the spaCy paths and standard input *)
(* ===================================================================== *)

Section spacy_facts.
Context {L : StrLower} {R : StrRuntime} {O : SetOrder} {E : SentenceTransformers}
        {Sp : SpacyLib} {D : LangdetectLib} {J : JsonLib} {I : Stdin}.

Lemma dict_add_positive k n (d : list (string * Z)) :
  1 ≤ n → Forall (λ kv, 1 ≤ kv.2) d → Forall (λ kv, 1 ≤ kv.2) (PyOps.dict_add k n d).
Proof.
  intros Hn Hd. induction Hd as [|[k' v] d Hv Hd IH]; cbn [PyOps.dict_add].
  - constructor; [exact Hn | constructor].
  - cbn [snd] in Hv. destruct (String.eqb k' k); constructor; cbn [snd]; try assumption. lia.
Qed.

Lemma keyword_scores_positive (chunks : list string) (es : list entity) :
  Forall (λ kv, 1 ≤ kv.2) (score_entities (score_chunks chunks) es).
Proof.
  unfold score_entities, score_chunks.
  set (P := Forall (λ kv : string * Z, 1 ≤ kv.2)).
  assert (∀ acc, P acc →
            P (foldl (λ keyword_scores chunk,
                        let key := strip (lower chunk) in
                        if 2 <? PyOps.str_len key then PyOps.dict_add key 1 keyword_scores
                        else keyword_scores) acc chunks)) as Hchunks.
  { induction chunks as [|c chunks IH]; intros acc Hacc; cbn [foldl]; [exact Hacc|].
    apply IH. cbn zeta. destruct (2 <? _); [|exact Hacc].
    apply dict_add_positive; [lia | exact Hacc]. }
  assert (∀ acc, P acc →
            P (foldl (λ keyword_scores ent,
                        let key := strip (lower (ent_text ent)) in
                        PyOps.dict_add key 2 keyword_scores) acc es)) as Hents.
  { induction es as [|ent es IH]; intros acc Hacc; cbn [foldl]; [exact Hacc|].
    apply IH. cbn zeta. apply dict_add_positive; [lia | exact Hacc]. }
  apply Hents, Hchunks. constructor.
Qed.

Lemma max_value_spec (v : Z) (rest : list Z) :
  max_value v rest ∈ v :: rest ∧ Forall (λ x, x ≤ max_value v rest) (v :: rest).
Proof.
  unfold max_value. revert v. induction rest as [|x rest IH]; intros v; cbn [foldl].
  - split; [left | constructor; [lia | constructor]].
  - destruct (IH (Z.max v x)) as [Hin Hall].
    apply Forall_cons in Hall as [Hm Hall]. split.
    + apply elem_of_cons in Hin as [Heq | Hin].
      * rewrite Heq. destruct (Z.max_spec v x) as [[_ ->] | [_ ->]]; [right; left | left].
      * right. right. exact Hin.
    + constructor; [lia|]. constructor; [lia | exact Hall].
Qed.

Lemma sorted_by_count_perm (items : list (string * Z)) :
  PyOps.sorted_by_count items ≡ₚ items.
Proof.
  unfold PyOps.sorted_by_count. induction items as [|x items IH]; cbn [foldr]; [done|].
  by rewrite insert_by_count_perm, IH.
Qed.

Lemma sorted_by_count_sorted (items : list (string * Z)) :
  StronglySorted (λ a b, b.2 ≤ a.2) (PyOps.sorted_by_count items).
Proof.
  unfold PyOps.sorted_by_count. induction items as [|x items IH]; cbn [foldr].
  - constructor.
  - by apply insert_by_count_sorted.
Qed.

Lemma sorted_head_is_max (items : list (string * Z)) (kv : string * Z) (m : Z) :
  head (PyOps.sorted_by_count items) = Some kv →
  m ∈ items.*2 →
  Forall (λ x, x.2 ≤ m) items →
  kv.2 = m.
Proof.
  intros Hhead Hm Hall.
  pose proof (sorted_by_count_perm items) as Hperm.
  pose proof (sorted_by_count_sorted items) as Hsorted.
  destruct (PyOps.sorted_by_count items) as [|kv' rest]; [discriminate|].
  injection Hhead as ->.
  apply StronglySorted_inv in Hsorted as [_ Hrest].
  apply list_elem_of_fmap in Hm as (x & -> & Hx).
  assert (kv.2 ≤ x.2) as Hle1.
  { rewrite Forall_forall in Hall. apply Hall. rewrite <- Hperm. left. }
  assert (x.2 ≤ kv.2) as Hle2.
  { rewrite <- Hperm in Hx. apply elem_of_cons in Hx as [-> | Hx]; [lia|].
    rewrite Forall_forall in Hrest. by apply Hrest. }
  lia.
Qed.

(** X21. With a loaded pipeline that answers and gives noun chunks,
    [extract_keywords] with a [topK] that is a non-negative integer never
    raises: every score of the table is at least 1, so the maximum that
    the scores are divided by is never zero. It returns by method
    "spacy" the first [topK] entries of the ranked table, each with its
    score over the maximum, and the first keyword listed has the maximum
    as its frequency. *)
Theorem keywords_are_scored_against_the_maximum (args : gmap string pyval) pipeline d
    (chunks : list string) (n : Z) :
  nlp_call pipeline (default (PStr "") (args !! "text")) = Ok d →
  noun_chunks d = Ok chunks →
  default (PInt 10) (args !! "topK") = PInt n →
  0 ≤ n →
  ∃ kws max_score,
    extract_keywords args (Some pipeline) =
      ([EvNlp (default (PStr "") (args !! "text"))],
       Ok (Some pipeline,
           PDict [ (PStr "keywords", PList kws); (PStr "method", PStr "spacy") ]))
    ∧ 1 ≤ max_score
    ∧ Forall (λ kv, 1 ≤ kv.2 ≤ max_score) (score_entities (score_chunks chunks) (ents d))
    ∧ Forall2 (λ kw kv, field "keyword" kw = Some (PStr kv.1) ∧
                        field "frequency" kw = Some (PInt kv.2) ∧
                        field "score" kw =
                          Some (PFloat (PrimFloat.div (PyOps.float_of_Z kv.2)
                                                      (PyOps.float_of_Z max_score))))
        kws
        (take (Z.to_nat n)
           (PyOps.sorted_by_count (score_entities (score_chunks chunks) (ents d))))
    ∧ ∀ kw, head kws = Some kw → field "frequency" kw = Some (PInt max_score).
Proof.
  intros Hdoc Hchunks Htop Hn.
  unfold extract_keywords, get_spacy, NlpM.call, NlpM.pure.
  rewrite Htop. cbn [mbind Nlp_bind mret Nlp_ret app]. rewrite Hdoc.
  cbn [mbind Nlp_bind mret Nlp_ret app]. rewrite Hchunks.
  cbn [PyOps.slice_to]. apply Z.ltb_ge in Hn. rewrite Hn.
  pose proof (keyword_scores_positive chunks (ents d)) as Hpos.
  set (keyword_scores := score_entities (score_chunks chunks) (ents d)) in *.
  set (max_score := match keyword_scores with
                    | kv :: rest => max_value kv.2 (snd <$> rest)
                    | [] => 1
                    end).
  assert (1 ≤ max_score ∧ Forall (λ kv, kv.2 ≤ max_score) keyword_scores ∧
          (keyword_scores ≠ [] → max_score ∈ keyword_scores.*2)) as (Hone & Hmax & Hin).
  { subst max_score. destruct keyword_scores as [|kv rest]; [by repeat split; try constructor|].
    destruct (max_value_spec kv.2 (snd <$> rest)) as [Hin Hall].
    apply Forall_cons in Hpos as [Hkv _].
    pose proof Hall as Hall'. apply Forall_cons in Hall' as [Hm _].
    split; [lia|]. split; [|intros _; exact Hin].
    rewrite Forall_forall in Hall. apply Forall_forall. intros x Hx. apply Hall.
    change (x.2 ∈ snd <$> kv :: rest). apply list_elem_of_fmap. exists x. by split. }
  clearbody max_score.
  rewrite mapM_keyword_dict by lia. cbn [mbind Nlp_bind mret Nlp_ret app].
  eexists _, max_score. split; [reflexivity|]. split; [exact Hone|]. split.
  { apply Forall_and. split; [exact Hpos | exact Hmax]. }
  split.
  { apply Forall2_fmap_l, Forall_Forall2_diag, Forall_true. by intros kv. }
  intros kw Hhead.
  destruct (take (Z.to_nat n) (PyOps.sorted_by_count keyword_scores))
    as [|kv top] eqn:Htake; [discriminate|].
  injection Hhead as <-. cbn. do 2 f_equal.
  apply (sorted_head_is_max keyword_scores).
  - destruct (PyOps.sorted_by_count keyword_scores) as [|kv' rest'] eqn:Hs.
    + by rewrite take_nil in Htake.
    + destruct (Z.to_nat n); [discriminate|].
      cbn in Htake. injection Htake as -> _. reflexivity.
  - apply Hin. intros Hnil. rewrite Hnil in Htake. cbn in Htake.
    by rewrite take_nil in Htake.
  - exact Hmax.
Qed.

(** X22. [get_spacy] returns [None] exactly when no pipeline was loaded
    before and an [ImportError] was raised: by the import of spaCy, by
    the load of the model, or by the blank pipeline that replaces a model
    whose load raised an [OSError]. An [ImportError] raised while loading
    is thus taken for spaCy not being installed. *)
Theorem get_spacy_none_is_an_import_error (g : option nlp_t) (tr : list nlp_event) :
  get_spacy g = (tr, Ok None) ↔
  g = None ∧
  ∃ msg,
    (spacy_import = Raise (ImportError msg) ∧ tr = [EvImportSpacy])
    ∨ (spacy_import = Ok () ∧
       spacy_load "en_core_web_sm" = Raise (ImportError msg) ∧
       tr = [EvImportSpacy; EvSpacyLoad "en_core_web_sm"])
    ∨ (spacy_import = Ok () ∧
       (∃ e, spacy_load "en_core_web_sm" = Raise e ∧ PyOps.is_OSError e = true) ∧
       spacy_blank "en" = Raise (ImportError msg) ∧
       tr = [EvImportSpacy; EvSpacyLoad "en_core_web_sm"; EvSpacyBlank "en"]).
Proof.
  unfold get_spacy, NlpM.call. split.
  - destruct g as [nlp|]; [discriminate|]. intros Hrun. split; [reflexivity|].
    destruct spacy_import as [[]|e0] eqn:Himport.
    + destruct (spacy_load "en_core_web_sm") as [nlp|e1] eqn:Hload; [discriminate|].
      cbn in Hrun. destruct (PyOps.is_OSError e1) eqn:Hos.
      * destruct (spacy_blank "en") as [nlp|e2] eqn:Hblank; [discriminate|].
        cbn in Hrun. destruct e2 as [?|msg|?|? ?]; try discriminate.
        injection Hrun as <-. exists msg. right. right.
        split; [reflexivity|]. split; [by exists e1|]. by split.
      * cbn in Hrun. destruct e1 as [?|msg|?|? ?]; try discriminate.
        injection Hrun as <-. exists msg. right. left. by split_and!.
    + cbn in Hrun. destruct e0 as [?|msg|?|? ?]; try discriminate.
      injection Hrun as <-. exists msg. left. by split.
  - intros [-> (msg & [[Himport ->] | [(Himport & Hload & ->) | (Himport & (e & Hload & Hos) & Hblank & ->)]])];
      rewrite Himport; [reflexivity|rewrite Hload; reflexivity|].
    rewrite Hload. cbn. rewrite Hos, Hblank. reflexivity.
Qed.

Lemma sentence_dicts_lookup (index : Z) (spans : list span) (i : nat) (sent : span) :
  spans !! i = Some sent →
  sentence_dicts index spans !! i =
    Some (PDict [ (PStr "text", PStr (strip (span_text sent)));
                  (PStr "start", PInt (start_char sent));
                  (PStr "end", PInt (end_char sent));
                  (PStr "index", PInt (index + Z.of_nat i)) ]).
Proof.
  revert index i. induction spans as [|s spans IH]; intros index i Hi; [done|].
  destruct i as [|i]; cbn [sentence_dicts].
  - injection Hi as ->. cbn. by rewrite Z.add_0_r.
  - cbn in Hi. cbn [lookup list_lookup]. rewrite (IH _ _ Hi).
    replace (index + 1 + Z.of_nat i) with (index + Z.of_nat (S i)) by lia. reflexivity.
Qed.

Lemma sentence_dicts_length (index : Z) (spans : list span) :
  length (sentence_dicts index spans) = length spans.
Proof.
  revert index. induction spans as [|s spans IH]; intros index; [done|].
  cbn. by rewrite IH.
Qed.

(** X23. With a loaded pipeline that answers and gives sentences,
    [split_sentences] lists one entry per sentence, in order, by method
    "spacy": the entry at position [i] carries the stripped text and the
    offsets of the sentence at position [i], and its "index" is [i];
    "count" is the number of sentences. *)
Theorem spacy_sentences_are_numbered (args : gmap string pyval) pipeline d
    (spans : list span) :
  nlp_call pipeline (default (PStr "") (args !! "text")) = Ok d →
  sents d = Ok spans →
  ∃ listed,
    split_sentences args (Some pipeline) =
      ([EvNlp (default (PStr "") (args !! "text"))],
       Ok (Some pipeline,
           PDict [ (PStr "sentences", PList listed);
                   (PStr "count", PInt (Z.of_nat (length spans)));
                   (PStr "method", PStr "spacy") ]))
    ∧ length listed = length spans
    ∧ ∀ (i : nat) sent, spans !! i = Some sent →
        ∃ item, listed !! i = Some item ∧
                field "index" item = Some (PInt (Z.of_nat i)) ∧
                field "text" item = Some (PStr (strip (span_text sent))) ∧
                field "start" item = Some (PInt (start_char sent)) ∧
                field "end" item = Some (PInt (end_char sent)).
Proof.
  intros Hdoc Hsents. unfold split_sentences, get_spacy, NlpM.call, NlpM.pure.
  cbn [mbind Nlp_bind mret Nlp_ret app]. rewrite Hdoc.
  cbn [mbind Nlp_bind mret Nlp_ret app]. rewrite Hsents.
  cbn [mbind Nlp_bind mret Nlp_ret app].
  exists (sentence_dicts 0 spans). rewrite sentence_dicts_length.
  split; [reflexivity|]. split; [reflexivity|].
  intros i sent Hi. eexists. split; [by apply sentence_dicts_lookup|].
  rewrite Z.add_0_l. by split_and!.
Qed.

(** X24. With a command and no further argument, [main] reads the
    arguments from standard input, and input that cannot be read or is
    not JSON counts as no arguments at all: the run prints and ends as
    the run with the empty object given as argument does. *)
Theorem nlp_main_unreadable_input_is_no_arguments (argv : list string) (command : string) :
  length argv = 2%nat →
  argv !! 1%nat = Some command →
  command ∈ COMMANDS.*1 →
  (∃ e, stdin_read = Raise e) ∨
    (∃ input e, stdin_read = Ok input ∧ json_loads input = Raise e) →
  json_loads "{}" = Ok (PDict []) →
  NlpM.stdout (nlp_main argv).1 = NlpM.stdout (nlp_main (argv ++ ["{}"])).1
  ∧ (nlp_main argv).2 = (nlp_main (argv ++ ["{}"])).2.
Proof.
  intros Hlen Hcmd Hknown Hinput Hempty.
  destruct argv as [|prog [|command' [|? ?]]]; try discriminate.
  injection Hcmd as ->.
  unfold nlp_main. cbn [length Nat.ltb Nat.leb app lookup list_lookup default from_option id].
  pose proof (find_command command) as Hfind.
  destruct (snd <$> find (λ kv, String.eqb kv.1 command) COMMANDS) as [handler|];
    [|by destruct Hfind].
  unfold NlpM.call. rewrite Hempty.
  set (run := λ args : pyval,
         NlpM.try_except
           (d ← NlpM.pure (args_dict args);
            '(_, result) ← handler d no_globals;
            NlpM.print_json result)
           (λ e, if PyOps.is_Exception e
                 then Some (_ ← NlpM.print_json
                                  (PDict [ (PStr "error", PStr (PyOps.exn_str e));
                                           (PStr "command", PStr command) ]);
                            NlpM.sys_exit 1)
                 else None)).
  destruct Hinput as [[e Hread] | (input & e & Hread & Hjson)]; rewrite Hread.
  - cbn -[NlpM.stdout]. fold (run (PDict [])).
    destruct (run (PDict [])) as [tr r]. split; reflexivity.
  - cbn -[NlpM.stdout]. rewrite Hjson. cbn -[NlpM.stdout]. fold (run (PDict [])).
    destruct (run (PDict [])) as [tr r]. split; reflexivity.
Qed.

(** Each hash sign counts as one character when the text after them
    starts a character of its own. *)
Lemma str_len_hashes (k : nat) (rest : string) :
  (∀ c s, rest = String c s → c ≠ "#"%char ∧ PyVal.is_continuation c = false) →
  PyOps.str_len (hashes k rest) = Z.of_nat k + PyOps.str_len rest.
Proof.
  intros Hrest. unfold PyOps.str_len. induction k as [|k IH]; [done|].
  cbn [hashes].
  assert (∀ s, (∀ c s', s = String c s' → PyVal.is_continuation c = false) →
               length (PyVal.chars (String "#" s)) = S (length (PyVal.chars s))) as Hstep.
  { intros [|c s'] Hs; [done|]. cbn [PyVal.chars]. by rewrite (Hs c s' eq_refl). }
  rewrite Hstep.
  - rewrite !Nat2Z.inj_succ, IH. lia.
  - intros c s' Hs. destruct k as [|k]; cbn [hashes] in Hs.
    + by apply (Hrest c s').
    + by injection Hs as <- _.
Qed.

Lemma lstrip_hashes (k : nat) (rest : string) :
  (∀ c s, rest = String c s → c ≠ "#"%char ∧ PyVal.is_continuation c = false) →
  PyOps.lstrip_char "#" (hashes k rest) = rest.
Proof.
  intros Hrest. induction k as [|k IH]; cbn [hashes PyOps.lstrip_char].
  - destruct rest as [|c s]; [done|]. cbn [PyOps.lstrip_char].
    destruct (ascii_dec c "#") as [Hc|_]; [|done].
    by destruct (Hrest c s eq_refl).
  - destruct (ascii_dec "#" "#"); [exact IH | done].
Qed.

(** X25. The level [generate_outline] gives a markdown heading is the
    number of hash signs the stripped line starts with, and the title is
    what follows them, stripped: a line of [k] hash signs, [k] at least
    1, followed by a text that does not start with a hash sign has level
    [k]. *)
Theorem heading_level_counts_hashes (k : nat) (rest : string) :
  (1 ≤ k)%nat →
  (∀ c s, rest = String c s → c ≠ "#"%char ∧ PyVal.is_continuation c = false) →
  heading_of (hashes k rest) = (Z.of_nat k, strip rest).
Proof.
  intros Hk Hrest. unfold heading_of.
  destruct k as [|k]; [lia|].
  assert (PyStr.startswith "#" (hashes (S k) rest) = true) as -> by reflexivity.
  rewrite lstrip_hashes, str_len_hashes by exact Hrest. f_equal. lia.
Qed.

End spacy_facts.

(* ===================================================================== *)
(** ** More concrete runs *)
(* ===================================================================== *)

Section more_runs.
Import Doubles NlpDoubles.

Lemma labels_and_codes_of_result_witness :
  ∃ tr self' r,
    fit_and_detect (E := zero_embedder) scenario_detector scenario_messages
      = (tr, Ok (self', r)) ∧
    topic_labels r !! 1 = Some "rent_payment" ∧
    topic_codes r !! 2%nat = Some "MONEY".
Proof.
  eexists _, _, _. split; [vm_compute; reflexivity|].
  pose proof (labels_and_codes_of_result (E := zero_embedder) scenario_detector
                scenario_messages _ _ _ ltac:(vm_compute; reflexivity)
                ltac:(simpl; lia)) as [Hlabels Hcodes].
  split.
  - apply Hlabels. split_and!; [| done | reflexivity | reflexivity].
    cbn. rewrite !elem_of_cons. tauto.
  - refine (Hcodes 2%nat 1 "rent_payment" eq_refl _). reflexivity.
Defined.


Lemma get_embedding_agrees_with_batch_witness :
  ∃ tr' self' r,
    fit_and_detect (E := zero_embedder) scenario_detector [PStr "hello"]
      = (tr', Ok (self', r)) ∧
    embeddings r = PList [placeholder_vector] ∧
    is_vector 384 placeholder_vector.
Proof.
  eexists _, _, _. split; [vm_compute; reflexivity|].
  eapply (get_embedding_agrees_with_batch (E := zero_embedder) 384 scenario_detector
            (PStr "hello")).
  - exact zero_embedder_contract.
  - reflexivity.
  - vm_compute. reflexivity.
Defined.

Lemma sentiment_label_and_bounds_witness :
  ∃ r score confidence,
    analyze_sentiment {[ "text" := PStr "I LOVE this great movie" ]} = Ok r ∧
    field "label" r = Some (PStr "positive") ∧
    field "score" r = Some (PFloat score) ∧
    field "confidence" r = Some (PFloat confidence) ∧
    PrimFloat.leb (-1)%float score = true ∧ PrimFloat.leb score 1%float = true ∧
    PrimFloat.leb 0.5%float confidence = true ∧ PrimFloat.leb confidence 1%float = true ∧
    (PrimFloat.eqb confidence 1%float = true ↔ 0 < 2 + 0 ∧ (2 = 0 ∨ 0 = 0)) ∧
    (has_field "positive_matches" r = true ↔ 0 < 2 + 0) ∧
    (has_field "negative_matches" r = true ↔ 0 < 2 + 0).
Proof.
  exact (sentiment_label_and_bounds {[ "text" := PStr "I LOVE this great movie" ]}
           "I LOVE this great movie" 2 0 eq_refl
           ltac:(vm_compute; reflexivity) ltac:(vm_compute; reflexivity)).
Defined.

Lemma keywords_fallback_never_raises_witness :
  ∃ kws,
    extract_keywords (Sp := missing_spacy)
      {[ "text" := PStr "rent money rent school rent money" ]} None =
      ([EvImportSpacy],
       Ok (None, PDict [ (PStr "keywords", PList kws); (PStr "method", PStr "frequency") ]))
    ∧ (length kws ≤ Z.to_nat 10)%nat
    ∧ Forall2 (λ kw kv, field "keyword" kw = Some (PStr kv.1) ∧
                        field "frequency" kw = Some (PInt kv.2))
        kws [ ("rent", 3); ("money", 2); ("school", 1) ].
Proof.
  exact (keywords_fallback_never_raises (Sp := missing_spacy)
           {[ "text" := PStr "rent money rent school rent money" ]}
           "rent money rent school rent money" "No module named 'spacy'" 10
           eq_refl eq_refl eq_refl ltac:(lia)).
Defined.

Lemma entities_are_selected_by_type_witness :
  ∃ kept found,
    kept = [ {| ent_text := "Alice"; label_ := "PERSON";
                ent_start_char := 0; ent_end_char := 5 |};
             {| ent_text := "Bob"; label_ := "PERSON";
                ent_start_char := 26; ent_end_char := 29 |} ] ∧
    extract_entities (Sp := fixed_spacy)
      {[ "text" := PStr "Alice went to Paris with Bob."; "types" := PList [PStr "PERSON"] ]}
      (Some ())
    = ([EvNlp (PStr "Alice went to Paris with Bob.")],
       Ok (Some (),
           PDict [ (PStr "entities", PList (entity_dict <$> kept));
                   (PStr "count", PInt (Z.of_nat (length kept)));
                   (PStr "types_found", PList (PStr <$> found));
                   (PStr "method", PStr "spacy") ])) ∧
    NoDup found ∧
    ∀ ty, ty ∈ found ↔ ∃ ent, ent ∈ kept ∧ label_ ent = ty.
Proof.
  refine (entities_are_selected_by_type (Sp := fixed_spacy)
            {[ "text" := PStr "Alice went to Paris with Bob.";
               "types" := PList [PStr "PERSON"] ]}
            () _ ["PERSON"] eq_refl _).
  right. reflexivity.
Defined.

Lemma embed_text_loads_once_or_retries_witness :
  (Some "all-MiniLM-L6-v2" = Some "all-MiniLM-L6-v2" ∧
   field "model"
     (PDict [ (PStr "embeddings", PList [placeholder_vector]);
              (PStr "model", PStr "all-MiniLM-L6-v2");
              (PStr "dimensions", PInt 384) ])
     = Some (PStr "all-MiniLM-L6-v2") ∧
   (embed_text (E := Doubles.zero_embedder) {[ "text" := PStr "again" ]}
               (Some "all-MiniLM-L6-v2")).1
   = [EvEncode (texts_of_args {[ "text" := PStr "again" ]})])
  ∨ (Some "all-MiniLM-L6-v2" = None ∧
     field "model"
       (PDict [ (PStr "embeddings", PList [placeholder_vector]);
                (PStr "model", PStr "all-MiniLM-L6-v2");
                (PStr "dimensions", PInt 384) ])
       = Some (PStr "unavailable") ∧
     ∃ tr', (embed_text (E := Doubles.zero_embedder) {[ "text" := PStr "again" ]}
                        (Some "all-MiniLM-L6-v2")).1
            = EvImportSentenceTransformers :: tr').
Proof.
  refine (embed_text_loads_once_or_retries (E := Doubles.zero_embedder)
            ({[ "text" := PStr "first" ]} : gmap string pyval)
            ({[ "text" := PStr "again" ]} : gmap string pyval) _ _ _ _).
  vm_compute. reflexivity.
Defined.

Lemma outline_entries_are_headings_in_order_witness :
  ∃ entries : list (Z * string * Z),
    generate_outline {[ "text" := PStr "# Title" ]} =
      Ok (PDict [ (PStr "outline", PList (outline_entry <$> entries));
                  (PStr "depth", PInt 3);
                  (PStr "sections", PInt (Z.of_nat (length entries))) ]) ∧
    Forall (λ e, 1 ≤ e.1.1 ≤ 3 ∧
                 ∃ line, PyOps.split_on "010"%char "# Title" !! Z.to_nat (e.2 - 1) = Some line ∧
                         1 ≤ e.2 ∧ heading_of (strip line) = e.1) entries ∧
    StronglySorted (λ a b, a.2 < b.2) entries.
Proof.
  exact (outline_entries_are_headings_in_order {[ "text" := PStr "# Title" ]}
           "# Title" 3 eq_refl eq_refl).
Defined.

Lemma classify_text_picks_a_given_category_witness :
  ∃ r cat conf,
    classify_text {[ "text" := PStr "the weather is fine";
                     "categories" := PList [PStr "sports"; PStr "politics"] ]} = Ok r ∧
    field "category" r = Some (PStr cat) ∧
    field "confidence" r = Some (PFloat conf) ∧
    field "method" r = Some (PStr "keyword") ∧
    cat ∈ [ "sports"; "politics" ] ∧
    ((∀ k, k ∈ [ "sports"; "politics" ] →
           PyOps.count (lower k) (lower "the weather is fine") = 0) →
     cat = "sports" ∧
     conf = PrimFloat.div 1.0%float (PyOps.float_of_Z (Z.of_nat (length ["sports"; "politics"])))).
Proof.
  exact (classify_text_picks_a_given_category
           {[ "text" := PStr "the weather is fine";
              "categories" := PList [PStr "sports"; PStr "politics"] ]}
           "the weather is fine" "sports" ["politics"] eq_refl eq_refl).
Defined.

Lemma classify_text_needs_a_category_witness :
  ∃ msg, classify_text {[ "text" := PStr "anything"; "categories" := PList [] ]}
         = Raise (Exception "ValueError" msg).
Proof.
  refine (classify_text_needs_a_category
            {[ "text" := PStr "anything"; "categories" := PList [] ]}
            "anything" (PList []) eq_refl eq_refl _).
  left. reflexivity.
Defined.

Lemma split_sentences_fallback_counts_all_pieces_witness :
  ∃ listed,
    split_sentences (Sp := missing_spacy) {[ "text" := PStr "One. Two!  " ]} None =
      ([EvImportSpacy],
       Ok (None, PDict [ (PStr "sentences", PList listed);
                         (PStr "count", PInt 3);
                         (PStr "method", PStr "regex") ]))
    ∧ (length listed ≤ 3)%nat
    ∧ Forall (λ d, field "start" d = Some (PInt 0) ∧
                   ∃ t, field "text" d = Some (PStr t) ∧ t ≠ EmptyString) listed
    ∧ Forall2 (λ d piece, field "text" d = Some (PStr (strip piece)) ∧
                          field "start" d = Some (PInt 0) ∧
                          field "end" d = Some (PInt (PyOps.str_len piece)))
        listed [ "One."; "Two!" ].
Proof.
  exact (split_sentences_fallback_counts_all_pieces (Sp := missing_spacy)
           {[ "text" := PStr "One. Two!  " ]} "One. Two!  " "No module named 'spacy'"
           eq_refl eq_refl).
Defined.

Lemma nlp_main_rejects_unknown_command_witness :
  ∃ msg,
    nlp_main (E := Doubles.zero_embedder) (Sp := missing_spacy) (D := missing_langdetect)
             (J := Doubles.table_json) (I := empty_stdin)
             ["nlp_runner.py"; "translate"] =
      ([EvPy (EvPrint
          (PDict [ (PStr "error", PStr msg);
                   (PStr "available",
                    PList (PStr <$> [ "detect_language"; "extract_entities";
                                      "extract_keywords"; "analyze_sentiment";
                                      "split_sentences"; "generate_outline";
                                      "embed_text"; "classify_text" ])) ]))],
       Raise (SystemExit 1)).
Proof.
  refine (nlp_main_rejects_unknown_command (E := Doubles.zero_embedder)
            (Sp := missing_spacy) (D := missing_langdetect) (J := Doubles.table_json)
            (I := empty_stdin) ["nlp_runner.py"; "translate"] _).
  right. exists "translate". split; [reflexivity|].
  rewrite !not_elem_of_cons. split_and!; try discriminate. apply not_elem_of_nil.
Defined.

Lemma nlp_main_rejects_non_object_arguments_witness :
  nlp_main (E := Doubles.zero_embedder) (Sp := missing_spacy) (D := missing_langdetect)
           (J := Doubles.table_json) (I := empty_stdin)
           ["nlp_runner.py"; "analyze_sentiment"; "[1, 2]"] =
    ([EvPy (EvJsonLoads "[1, 2]");
      EvPy (EvPrint
        (PDict [ (PStr "error", PStr "'list' object has no attribute 'get'");
                 (PStr "command", PStr "analyze_sentiment") ]))],
     Raise (SystemExit 1)).
Proof.
  refine (nlp_main_rejects_non_object_arguments (E := Doubles.zero_embedder)
            (Sp := missing_spacy) (D := missing_langdetect) (J := Doubles.table_json)
            (I := empty_stdin) ["nlp_runner.py"; "analyze_sentiment"; "[1, 2]"]
            "analyze_sentiment" "[1, 2]" _ (PList [PInt 1; PInt 2])
            eq_refl eq_refl _ eq_refl _).
  - unfold COMMANDS. do 3 right. left.
  - intros items. discriminate.
Defined.

Lemma nlp_main_takes_plain_text_witness :
  ∃ r,
    nlp_main (E := Doubles.zero_embedder) (Sp := missing_spacy) (D := missing_langdetect)
             (J := Doubles.table_json) (I := empty_stdin)
             ["nlp_runner.py"; "analyze_sentiment"; "what an awful, boring day"]
    = (EvPy (EvJsonLoads "what an awful, boring day") :: [] ++ [EvPy (EvPrint r)], Ok ())
    ∧ NlpM.stdout
        (nlp_main (E := Doubles.zero_embedder) (Sp := missing_spacy)
                  (D := missing_langdetect) (J := Doubles.table_json) (I := empty_stdin)
                  ["nlp_runner.py"; "analyze_sentiment"; "what an awful, boring day"]).1
      = [r].
Proof.
  eexists.
  eapply (nlp_main_takes_plain_text (E := Doubles.zero_embedder) (Sp := missing_spacy)
            (D := missing_langdetect) (J := Doubles.table_json) (I := empty_stdin)
            ["nlp_runner.py"; "analyze_sentiment"; "what an awful, boring day"]
            "analyze_sentiment" "what an awful, boring day").
  - reflexivity.
  - reflexivity.
  - reflexivity.
  - reflexivity.
  - vm_compute. reflexivity.
Defined.

Lemma keywords_are_scored_against_the_maximum_witness :
  ∃ kws max_score,
    extract_keywords (Sp := fixed_spacy)
      {[ "text" := PStr "Alice went to Paris with Bob." ]} (Some ()) =
      ([EvNlp (PStr "Alice went to Paris with Bob.")],
       Ok (Some (),
           PDict [ (PStr "keywords", PList kws); (PStr "method", PStr "spacy") ]))
    ∧ 1 ≤ max_score
    ∧ Forall (λ kv, 1 ≤ kv.2 ≤ max_score)
        (score_entities (score_chunks ["Alice"; "Paris"]) three_entities)
    ∧ Forall2 (λ kw kv, field "keyword" kw = Some (PStr kv.1) ∧
                        field "frequency" kw = Some (PInt kv.2) ∧
                        field "score" kw =
                          Some (PFloat (PrimFloat.div (PyOps.float_of_Z kv.2)
                                                      (PyOps.float_of_Z max_score))))
        kws
        (take (Z.to_nat 10)
           (PyOps.sorted_by_count
              (score_entities (score_chunks ["Alice"; "Paris"]) three_entities)))
    ∧ ∀ kw, head kws = Some kw → field "frequency" kw = Some (PInt max_score).
Proof.
  exact (keywords_are_scored_against_the_maximum (Sp := fixed_spacy)
           {[ "text" := PStr "Alice went to Paris with Bob." ]} () _
           ["Alice"; "Paris"] 10 eq_refl eq_refl eq_refl ltac:(lia)).
Defined.

Lemma spacy_sentences_are_numbered_witness :
  ∃ listed,
    split_sentences (Sp := fixed_spacy)
      {[ "text" := PStr "Alice went to Paris with Bob." ]} (Some ()) =
      ([EvNlp (PStr "Alice went to Paris with Bob.")],
       Ok (Some (),
           PDict [ (PStr "sentences", PList listed);
                   (PStr "count", PInt 1);
                   (PStr "method", PStr "spacy") ]))
    ∧ length listed = 1%nat
    ∧ ∀ (i : nat) sent,
        [ {| span_text := "Alice went to Paris with Bob.";
             start_char := 0; end_char := 30 |} ] !! i = Some sent →
        ∃ item, listed !! i = Some item ∧
                field "index" item = Some (PInt (Z.of_nat i)) ∧
                field "text" item = Some (PStr (strip (span_text sent))) ∧
                field "start" item = Some (PInt (start_char sent)) ∧
                field "end" item = Some (PInt (end_char sent)).
Proof.
  exact (spacy_sentences_are_numbered (Sp := fixed_spacy)
           {[ "text" := PStr "Alice went to Paris with Bob." ]} () _ _ eq_refl eq_refl).
Defined.

Lemma nlp_main_unreadable_input_is_no_arguments_witness :
  NlpM.stdout
    (nlp_main (E := Doubles.zero_embedder) (Sp := missing_spacy) (D := missing_langdetect)
              (J := Doubles.table_json) (I := empty_stdin)
              ["nlp_runner.py"; "analyze_sentiment"]).1
  = NlpM.stdout
      (nlp_main (E := Doubles.zero_embedder) (Sp := missing_spacy) (D := missing_langdetect)
                (J := Doubles.table_json) (I := empty_stdin)
                (["nlp_runner.py"; "analyze_sentiment"] ++ ["{}"])).1
  ∧ (nlp_main (E := Doubles.zero_embedder) (Sp := missing_spacy) (D := missing_langdetect)
              (J := Doubles.table_json) (I := empty_stdin)
              ["nlp_runner.py"; "analyze_sentiment"]).2
    = (nlp_main (E := Doubles.zero_embedder) (Sp := missing_spacy) (D := missing_langdetect)
                (J := Doubles.table_json) (I := empty_stdin)
                (["nlp_runner.py"; "analyze_sentiment"] ++ ["{}"])).2.
Proof.
  refine (nlp_main_unreadable_input_is_no_arguments (E := Doubles.zero_embedder)
            (Sp := missing_spacy) (D := missing_langdetect) (J := Doubles.table_json)
            (I := empty_stdin) ["nlp_runner.py"; "analyze_sentiment"] "analyze_sentiment"
            eq_refl eq_refl _ _ eq_refl).
  - unfold COMMANDS. cbn [fmap list_fmap fst]. do 3 right. left.
  - right. eexists _, _. split; reflexivity.
Defined.

Lemma heading_level_counts_hashes_witness :
  heading_of (hashes 2 " Title") = (Z.of_nat 2, strip " Title").
Proof.
  refine (heading_level_counts_hashes 2 " Title" ltac:(lia) _).
  intros c s [= <- _]. split; [discriminate | reflexivity].
Defined.

End more_runs.
